(** * The vision-query adapter of exif-photo-blog

    A shallow embedding of the two revisions of the AI platform module:

    - [src/platforms/openai.ts]   (module [OpenAiTs] below), and
    - the revision that validates base URLs with [normalizeBaseUrl]
      (module [Validated] below).

    Both files share, word for word, everything from [getImageTextArgs]
    down to [testOpenAiConnection]; that part is embedded once, in
    section [Queries], over the module-level constants [aiClient] and
    [MODEL] each revision computes from the environment.

    Asynchronous code is modelled by the events it performs, in program
    order, and by how its promise settles.  The collaborators the module
    imports (rate limiter, AI SDK, image and text utilities, the URL
    class of the platform) are parameters. *)

From Stdlib Require Import Ascii String.
From stdpp Require Import base option list strings gmap fin_maps.

Local Open Scope string_scope.

(** ** JavaScript strings and truthiness *)

(** [s.startsWith(p)]. *)
Definition startsWith (p s : string) : bool := String.prefix p s.

(** [s.endsWith(suf)]: some tail of [s] is [suf]. *)
Fixpoint endsWith (suf s : string) : bool :=
  if String.eqb s suf then true
  else match s with
       | EmptyString => false
       | String _ t => endsWith suf t
       end.

(** [s.includes(needle)]: [needle] is a prefix of some tail of [s]. *)
Fixpoint includes (needle s : string) : bool :=
  if String.prefix needle s then true
  else match s with
       | EmptyString => false
       | String _ t => includes needle t
       end.

(** The values a module-level flag such as [IS_DEEPSEEK] can hold:
    [undefined], a string, or a boolean. *)
Inductive JsValue :=
| JsUndefined
| JsString (s : string)
| JsBool (b : bool).

Definition truthy (v : JsValue) : bool :=
  match v with
  | JsUndefined => false
  | JsString s => negb (String.eqb s "")
  | JsBool b => b
  end.

(** [a && b] and [a || b] return one of their operands. *)
Definition js_and (a b : JsValue) : JsValue := if truthy a then b else a.
Definition js_or (a b : JsValue) : JsValue := if truthy a then a else b.

(** An environment value, [string | undefined], as a JavaScript value. *)
Definition of_env (v : option string) : JsValue :=
  match v with
  | None => JsUndefined
  | Some s => JsString s
  end.

(** [v ? Some v : None] for an environment value: the string when it is
    truthy (defined and not empty). *)
Definition present (v : option string) : option string :=
  match v with
  | Some s => if String.eqb s "" then None else Some s
  | None => None
  end.

(** [v?.includes('deepseek')]. *)
Definition includes_deepseek (v : option string) : JsValue :=
  match v with
  | None => JsUndefined
  | Some s => JsBool (includes "deepseek" s)
  end.

(** ** Providers and clients *)

Inductive Provider := Deepseek | Openai.

(** What [createOpenAI] / [createDeepSeek] were given: the [baseURL]
    key is only there when the spread put it there. *)
Record Client := MkClient {
  provider : Provider;
  apiKey : string;
  baseURL : option string }.

Definition createOpenAI (key : string) (base : option string) : Client :=
  MkClient Openai key base.

Definition createDeepSeek (key : string) (base : option string) : Client :=
  MkClient Deepseek key base.

(** [aiClient(MODEL)]. *)
Record LanguageModel := MkModel {
  client : Client;
  modelId : string }.

Definition OPENAI_MODEL : string := "gpt-5.1".
Definition DEEPSEEK_MODEL : string := "deepseek-chat".

(** The constants from [@/app/config] the two revisions import. *)
Record Config := MkConfig {
  OPENAI_BASE_URL : option string;
  OPENAI_SECRET_KEY : option string;
  DEEPSEEK_API_KEY : option string;
  DEEPSEEK_BASE_URL : option string;
  AI_SECRET_KEY : option string;
  AI_BASE_URL : option string }.

(** ** Requests *)

Inductive ContentPart :=
| TextPart (text : string)
| ImagePart (image : string).

Record Message := MkMessage {
  role : string;
  content : list ContentPart }.

Record TextArgs := MkTextArgs {
  model : LanguageModel;
  messages : list Message }.

Record RateLimitArgs := MkRateLimitArgs {
  identifier : string;
  tokens : option nat;
  duration : option string }.

Record Error := MkError { message : string }.

(** How a promise settles. *)
Inductive Outcome (A : Type) :=
| Resolved (a : A)
| Rejected (e : Error).
Arguments Resolved {A} a.
Arguments Rejected {A} e.

(** ** Effects

    [Schema] is the type of the caller's zod schemas; the module only
    hands them on. *)

Set Warnings "-register-all".

Section Effects.
Context {Schema : Type}.

Record ObjectArgs := MkObjectArgs {
  obj_model : LanguageModel;
  obj_messages : list Message;
  obj_schema : Schema }.

(** What the module does to the outside world.  [Detached] is an async
    function that was called and not awaited: it carries the events of
    its body and the rejection nobody handles, if any. *)
Inductive Event :=
| RateLimitChecked (a : RateLimitArgs)
| GenerateTextCalled (a : TextArgs)
| StreamTextCalled (a : TextArgs)
| GenerateObjectCalled (a : ObjectArgs)
| StreamableCreated (initial : string)
| StreamUpdated (value : string)
| StreamDone
| Detached (body : list Event) (unhandled : option Error).

(** An awaited computation: its events, then how it settled. *)
Record Async (A : Type) := MkAsync {
  trace : list Event;
  outcome : Outcome A }.
Arguments MkAsync {A} trace outcome.
Arguments trace {A} _.
Arguments outcome {A} _.

#[global] Instance async_ret : MRet Async := λ A a, MkAsync [] (Resolved a).

#[global] Instance async_bind : MBind Async := λ A B k m,
  match outcome m with
  | Resolved a => MkAsync (trace m ++ trace (k a))%list (outcome (k a))
  | Rejected e => MkAsync (trace m) (Rejected e)
  end.

Definition emit (e : Event) : Async unit := MkAsync [e] (Resolved ()).

(** [throw e], or awaiting a promise that rejects with [e]. *)
Definition throw {A} (e : Error) : Async A := MkAsync [] (Rejected e).

(** Awaiting a promise that has settled as [o]. *)
Definition settle {A} (o : Outcome A) : Async A := MkAsync [] o.

(** [(async () => { body })()] without [await]: the caller goes on
    whatever happens in [body]. *)
Definition detach (body : Async unit) : Async unit :=
  emit (Detached (trace body)
          (match outcome body with
           | Resolved _ => None
           | Rejected e => Some e
           end)).

(** The fragments an async iterable yields, and the error that ends the
    iteration when it fails. *)
Record TextStream := MkTextStream {
  deltas : list string;
  failure : option Error }.

(** [for await (const delta of textStream) { body delta }]. *)
Fixpoint for_await (body : string → Async unit) (ds : list string)
    (fail : option Error) : Async unit :=
  match ds with
  | [] => match fail with
          | None => mret ()
          | Some e => throw e
          end
  | d :: ds' => body d ;; for_await body ds' fail
  end.

(** The part of a [generateText] result the module reads. *)
Record GenerateTextResult := MkTextResult { text : string }.

(** The part of a [generateObject] result the module reads; [None] is
    a [null] or [undefined] object.  Values are strings, as the cast
    [v as string] takes them to be. *)
Record GenerateObjectResult := MkObjectResult {
  object : option (gmap string string) }.

(** The imported collaborators. *)
Record Collaborators := MkCollaborators {
  (* [_checkRateLimitAndThrow]: [Some e] when it throws [e] *)
  rateLimit : RateLimitArgs → option Error;
  generateText : TextArgs → Outcome GenerateTextResult;
  streamText : TextArgs → TextStream;
  generateObject : ObjectArgs → Outcome GenerateObjectResult;
  removeBase64Prefix : string → string;
  cleanUpAiTextResponse : string → string }.

(** A trace with the bodies of its detached calls spliced in. *)
Definition flatten (t : list Event) : list Event :=
  e ← t;
  match e with
  | Detached body _ => body
  | _ => [e]
  end.

Definition is_provider_request (e : Event) : bool :=
  match e with
  | GenerateTextCalled _ | StreamTextCalled _ | GenerateObjectCalled _ => true
  | _ => false
  end.

(** The requests to a provider in a trace, those of detached bodies
    included. *)
Definition provider_requests (t : list Event) : list Event :=
  List.filter is_provider_request (flatten t).

(** The values pushed with [stream.update], in order. *)
Definition stream_updates (t : list Event) : list string :=
  e ← flatten t;
  match e with
  | StreamUpdated v => [v]
  | _ => []
  end.

(** The arguments of the calls of the rate limiter, in order. *)
Definition rate_limit_checks (t : list Event) : list RateLimitArgs :=
  e ← flatten t;
  match e with
  | RateLimitChecked a => [a]
  | _ => []
  end.

End Effects.
Arguments ObjectArgs : clear implicits.
Arguments Event : clear implicits.
Arguments Async : clear implicits.
Arguments Collaborators : clear implicits.
Arguments TextStream : clear implicits.
Arguments MkAsync {Schema A} trace outcome.
Arguments trace {Schema A} _.
Arguments outcome {Schema A} _.

(** ** The query operations

    Shared by both revisions, over the module-level constants
    [aiClient] and [MODEL] each of them computes. *)

(** What [stream.value] is when it is returned: the streamable's
    current value. *)
Record StreamableValue := MkStreamable { curr : string }.

(** The object literal [checkRateLimitAndThrow] builds: the spread
    [...isBatch && { tokens: 1200, duration: '1d' }] adds the two keys
    when [isBatch] is [true], and nothing for [false] or [undefined]. *)
Definition rateLimitOptions (isBatch : option bool) : RateLimitArgs :=
  match isBatch with
  | Some true => MkRateLimitArgs "openai-image-query" (Some 1200) (Some "1d")
  | _ => MkRateLimitArgs "openai-image-query" None None
  end.

Section Queries.
Context {Schema : Type} (w : Collaborators Schema).
Context (aiClient : option Client) (MODEL : string).

Definition checkRateLimitAndThrow (isBatch : option bool)
    : Async Schema unit :=
  let args := rateLimitOptions isBatch in
  emit (RateLimitChecked args) ;;
  match rateLimit w args with
  | Some e => throw e
  | None => mret ()
  end.

Definition getImageTextArgs (imageBase64 query : string) : option TextArgs :=
  match aiClient with
  | Some client =>
    Some (MkTextArgs (MkModel client MODEL)
            [MkMessage "user"
               [TextPart query;
                ImagePart (removeBase64Prefix w imageBase64)]])
  | None => None
  end.

Definition streamOpenAiImageQuery (imageBase64 query : string)
    : Async Schema StreamableValue :=
  checkRateLimitAndThrow None ;;
  emit (StreamableCreated "") ;;
  let args := getImageTextArgs imageBase64 query in
  match args with
  | Some args =>
    detach (
      emit (StreamTextCalled args) ;;
      let textStream := streamText w args in
      for_await
        (λ delta, emit (StreamUpdated (cleanUpAiTextResponse w delta)))
        (deltas textStream) (failure textStream) ;;
      emit StreamDone)
  | None => mret ()
  end ;;
  mret (MkStreamable "").

Definition generateOpenAiImageQuery (imageBase64 query : string)
    (isBatch : option bool) : Async Schema (option string) :=
  checkRateLimitAndThrow isBatch ;;
  let args := getImageTextArgs imageBase64 query in
  match args with
  | Some args =>
    emit (GenerateTextCalled args) ;;
    result ← settle (generateText w args);
    mret (Some (cleanUpAiTextResponse w (text result)))
  | None => mret None
  end.

(** [Object.fromEntries(Object.entries(o).map(([k, v]) => [k, f(v)]))]. *)
Definition map_entries (f : string → string) (o : gmap string string)
    : gmap string string :=
  list_to_map ((λ kv, (kv.1, f kv.2)) <$> map_to_list o).

Definition generateOpenAiImageObjectQuery (imageBase64 query : string)
    (schema : Schema) (isBatch : option bool)
    : Async Schema (gmap string string) :=
  checkRateLimitAndThrow isBatch ;;
  match aiClient with
  | Some client =>
    let args :=
      MkObjectArgs (MkModel client MODEL)
        [MkMessage "user"
           [TextPart query;
            ImagePart (removeBase64Prefix w imageBase64)]]
        schema in
    emit (GenerateObjectCalled args) ;;
    result ← settle (generateObject w args);
    mret (map_entries (cleanUpAiTextResponse w)
            (default ∅ (object result)))
  | None => throw (MkError "No AI client available")
  end.

Definition testOpenAiConnection : Async Schema (option GenerateTextResult) :=
  checkRateLimitAndThrow None ;;
  match aiClient with
  | Some client =>
    let args :=
      MkTextArgs (MkModel client MODEL)
        [MkMessage "user" [TextPart "Test connection"]] in
    emit (GenerateTextCalled args) ;;
    result ← settle (generateText w args);
    mret (Some result)
  | None => mret None
  end.

(** The request both text paths send for an image and a prompt. *)
Definition image_request (client : Client) (imageBase64 query : string)
    : TextArgs :=
  MkTextArgs (MkModel client MODEL)
    [MkMessage "user"
       [TextPart query; ImagePart (removeBase64Prefix w imageBase64)]].

(** The request the structured path sends. *)
Definition object_request (client : Client) (imageBase64 query : string)
    (schema : Schema) : ObjectArgs Schema :=
  MkObjectArgs (MkModel client MODEL)
    [MkMessage "user"
       [TextPart query; ImagePart (removeBase64Prefix w imageBase64)]]
    schema.

End Queries.

(** ** Revision [src/platforms/openai.ts]

    The module-level constants, as functions of the configuration. *)

Module OpenAiTs.

Definition IS_DEEPSEEK (cfg : Config) : JsValue :=
  js_and (of_env (DEEPSEEK_API_KEY cfg))
    (js_or (includes_deepseek (DEEPSEEK_BASE_URL cfg))
           (includes_deepseek (OPENAI_BASE_URL cfg))).

Definition openai (cfg : Config) : option Client :=
  match present (OPENAI_SECRET_KEY cfg) with
  | Some key => Some (createOpenAI key (present (OPENAI_BASE_URL cfg)))
  | None => None
  end.

Definition deepseek (cfg : Config) : option Client :=
  match present (AI_SECRET_KEY cfg) with
  | Some key => Some (createDeepSeek key (present (AI_BASE_URL cfg)))
  | None => None
  end.

Definition aiClient (cfg : Config) : option Client :=
  if truthy (IS_DEEPSEEK cfg) then deepseek cfg else openai cfg.

Definition MODEL (cfg : Config) : string :=
  if truthy (IS_DEEPSEEK cfg) then DEEPSEEK_MODEL else OPENAI_MODEL.

End OpenAiTs.

(** ** The revision with [normalizeBaseUrl] *)

(** The platform's [URL] class, as far as [normalizeBaseUrl] uses it:
    [new URL(s)] ([None] when it throws), the [pathname] getter and
    setter, and [toString()]. *)
Class UrlApi := {
  URL : Type;
  url_parse : string → option URL;
  pathname : URL → string;
  set_pathname : string → URL → URL;
  url_toString : URL → string }.

(** A call of [console.warn]: the message, and whether the caught
    exception was passed along. *)
Record Warning := MkWarning {
  warning : string;
  with_exception : bool }.

(** The [console.log] diagnostics the module prints in development
    read the constants below and change nothing; they are modelled
    apart, in [ValidatedDebug]. *)
Module Validated.
Section WithUrl.
Context `{UrlApi}.

(** How a template literal prints the [provider] argument. *)
Definition provider_text (provider : option Provider) : string :=
  match provider with
  | Some Deepseek => "deepseek"
  | Some Openai => "openai"
  | None => "undefined"
  end.

(** The result and the warnings printed on the way. *)
Definition normalizeBaseUrl (url : option string) (provider : option Provider)
    : option string * list Warning :=
  match present url with
  | None => (None, [])
  | Some url =>
    if negb (startsWith "http://" url) && negb (startsWith "https://" url)
    then
      (None,
       [MkWarning ("Invalid " +:+ provider_text provider
                   +:+ " base URL (missing protocol): " +:+ url) false])
    else
      match url_parse url with
      | Some parsed =>
        if match provider with Some Deepseek => true | _ => false end
           && negb (endsWith "/v1" (pathname parsed))
        then
          let parsed :=
            set_pathname
              (if endsWith "/" (pathname parsed)
               then pathname parsed +:+ "v1"
               else pathname parsed +:+ "/v1")
              parsed in
          (Some (url_toString parsed), [])
        else (Some url, [])
      | None =>
        (None,
         [MkWarning ("Invalid " +:+ provider_text provider
                     +:+ " base URL (parse error): " +:+ url) true])
      end
  end.

Definition normalizedDeepseekBaseUrl (cfg : Config) : option string :=
  (normalizeBaseUrl (DEEPSEEK_BASE_URL cfg) (Some Deepseek)).1.

Definition normalizedOpenaiBaseUrl (cfg : Config) : option string :=
  (normalizeBaseUrl (OPENAI_BASE_URL cfg) (Some Openai)).1.

(** What loading the module prints with [console.warn], in order. *)
Definition warnings (cfg : Config) : list Warning :=
  ((normalizeBaseUrl (DEEPSEEK_BASE_URL cfg) (Some Deepseek)).2
   ++ (normalizeBaseUrl (OPENAI_BASE_URL cfg) (Some Openai)).2)%list.

Definition IS_DEEPSEEK (cfg : Config) : JsValue :=
  js_and (of_env (DEEPSEEK_API_KEY cfg))
    (JsBool (truthy (of_env (normalizedDeepseekBaseUrl cfg)))).

Definition safeOpenaiBaseUrl (cfg : Config) : option string :=
  match present (normalizedOpenaiBaseUrl cfg) with
  | Some url => if negb (includes "deepseek" url) then Some url else None
  | None => None
  end.

Definition openai (cfg : Config) : option Client :=
  match present (OPENAI_SECRET_KEY cfg) with
  | Some key => Some (createOpenAI key (present (safeOpenaiBaseUrl cfg)))
  | None => None
  end.

Definition deepseek (cfg : Config) : option Client :=
  match present (DEEPSEEK_API_KEY cfg),
        present (normalizedDeepseekBaseUrl cfg) with
  | Some key, Some url => Some (createDeepSeek key (Some url))
  | _, _ => None
  end.

Definition aiClient (cfg : Config) : option Client :=
  if truthy (IS_DEEPSEEK cfg) then deepseek cfg else openai cfg.

Definition MODEL (cfg : Config) : string :=
  if truthy (IS_DEEPSEEK cfg) then DEEPSEEK_MODEL else OPENAI_MODEL.

End WithUrl.
End Validated.

(** [url] starts with [http://] or with [https://], the test
    [normalizeBaseUrl] makes before it parses. *)
Definition has_protocol (url : string) : bool :=
  startsWith "http://" url || startsWith "https://" url.

(** The URL objects [normalizeBaseUrl] can hold: parsed from a string
    with an http(s) protocol, then changed by the [pathname] setter. *)
Inductive http_url `{UrlApi} : URL → Prop :=
| http_url_parsed s u :
    has_protocol s = true → url_parse s = Some u → http_url u
| http_url_set p u :
    http_url u → http_url (set_pathname p u).

(** What the proofs about [normalizeBaseUrl] take from the URL
    standard: a serialised URL parses again, to the same path; an
    http(s) URL serialises with its protocol in front; and a path set
    to a string that ends in [/v1] still ends in [/v1] (the last
    segment, [v1], is kept as it is). *)
Class UrlLaws `{UrlApi} : Prop := {
  url_reparse u :
    http_url u →
    ∃ u', url_parse (url_toString u) = Some u' ∧ pathname u' = pathname u;
  url_protocol u :
    http_url u → has_protocol (url_toString u) = true;
  url_set_suffix p u :
    http_url u →
    endsWith "/v1" p = true →
    endsWith "/v1" (pathname (set_pathname p u)) = true }.

(** ** A small URL class

    An instance of [UrlApi] for URLs of the shape
    [http(s)://authority/path?query#fragment]: enough of the standard's
    parser to run [normalizeBaseUrl] on the base URLs of the two
    providers.  (The standard's parser also lower-cases hosts, resolves
    dot segments and percent-encodes more characters.) *)

Module SimpleUrl.

Record t := Mk {
  secure : bool;
  authority : string;
  path : string;
  tail : string }.

Definition ends_path (c : ascii) : bool :=
  Ascii.eqb c "?" || Ascii.eqb c "#".

Definition ends_authority (c : ascii) : bool :=
  Ascii.eqb c "/" || ends_path c.

(** The longest prefix without a [stop] character, and the rest. *)
Fixpoint span (stop : ascii → bool) (s : string) : string * string :=
  match s with
  | EmptyString => ("", "")
  | String c s' =>
    if stop c then ("", s)
    else (String c (span stop s').1, (span stop s').2)
  end.

Fixpoint drop (n : nat) (s : string) : string :=
  match n, s with
  | S n', String _ s' => drop n' s'
  | _, _ => s
  end.

Definition parse (s : string) : option t :=
  let scheme :=
    if startsWith "https://" s then Some (true, drop 8 s)
    else if startsWith "http://" s then Some (false, drop 7 s)
    else None in
  match scheme with
  | None => None
  | Some (sec, rest) =>
    let auth := span ends_authority rest in
    if String.eqb auth.1 "" then None
    else
      let p := span ends_path auth.2 in
      Some (Mk sec auth.1 (if String.eqb p.1 "" then "/" else p.1) p.2)
  end.

Definition toString (u : t) : string :=
  (if secure u then "https://" else "http://")
  +:+ authority u +:+ path u +:+ tail u.

(** The [pathname] setter keeps the value inside the path: [?] and [#]
    are percent-encoded, and the path starts with a slash. *)
Fixpoint encode (p : string) : string :=
  match p with
  | EmptyString => ""
  | String c p' =>
    (if Ascii.eqb c "?" then "%3F"
     else if Ascii.eqb c "#" then "%23"
     else String c "") +:+ encode p'
  end.

Definition set_path (p : string) (u : t) : t :=
  let q := encode p in
  Mk (secure u) (authority u)
     (if startsWith "/" q then q else "/" +:+ q) (tail u).

#[global] Instance api : UrlApi := {|
  URL := t;
  url_parse := parse;
  pathname := path;
  set_pathname := set_path;
  url_toString := toString |}.

Fixpoint all_chars (ok : ascii → bool) (s : string) : bool :=
  match s with
  | EmptyString => true
  | String c s' => ok c && all_chars ok s'
  end.

(** [s] is empty or starts with a [stop] character. *)
Definition stops (stop : ascii → bool) (s : string) : bool :=
  match s with
  | EmptyString => true
  | String c _ => stop c
  end.

(** The URLs that serialise to a string that parses back to them. *)
Definition wf (u : t) : bool :=
  negb (String.eqb (authority u) "")
  && all_chars (λ c, negb (ends_authority c)) (authority u)
  && startsWith "/" (path u)
  && all_chars (λ c, negb (ends_path c)) (path u)
  && stops ends_path (tail u).

End SimpleUrl.

(** ** Stand-ins for the collaborators, to run the operations on *)

Module Sample.

(** Drops a PNG data-URL prefix. *)
Definition strip_png_prefix (s : string) : string :=
  if startsWith "data:image/png;base64," s then SimpleUrl.drop 22 s else s.

(** Drops double quotes. *)
Fixpoint strip_quotes (s : string) : string :=
  match s with
  | EmptyString => ""
  | String c s' =>
    if Ascii.eqb c (ascii_of_nat 34) then strip_quotes s'
    else String c (strip_quotes s')
  end.

(** A limiter that throws [limit] when it is given, a model that
    answers with the fragments [reply], and an object result [obj]. *)
Definition world (limit : option Error) (reply : list string)
    (obj : option (gmap string string)) : Collaborators unit := {|
  rateLimit := λ _, limit;
  generateText := λ _, Resolved (MkTextResult (String.concat "" reply));
  streamText := λ _, MkTextStream reply None;
  generateObject := λ _, Resolved (MkObjectResult obj);
  removeBase64Prefix := strip_png_prefix;
  cleanUpAiTextResponse := strip_quotes |}.

(** The limiter lets every call through. *)
Definition open_world : Collaborators unit := world None ["A "; "cat"] None.

(** The budget is used up. *)
Definition limited_world : Collaborators unit :=
  world (Some (MkError "Too many requests")) ["A "; "cat"] None.

Definition openai_client : Client := createOpenAI "sk-openai" None.

Definition no_config : Config := MkConfig None None None None None None.

(** An OpenAI base URL without its protocol. *)
Definition bare_openai_url : Config :=
  MkConfig (Some "api.openai.com/v1") (Some "sk-openai") None None None None.

(** A DeepSeek base URL without its protocol, next to an OpenAI key. *)
Definition bare_deepseek_url : Config :=
  MkConfig None (Some "sk-openai") (Some "sk-deepseek")
    (Some "api.deepseek.com") None None.

Definition openai_only : Config :=
  MkConfig None (Some "sk-openai") None None None None.

Definition deepseek_only : Config :=
  MkConfig None None (Some "sk-deepseek")
    (Some "https://api.deepseek.com") (Some "sk-deepseek") None.

End Sample.

(** ** What the claims speak of *)


(** The configuration with [OPENAI_BASE_URL], or [DEEPSEEK_BASE_URL],
    left out. *)
Definition without_openai_base_url (cfg : Config) : Config :=
  MkConfig None (OPENAI_SECRET_KEY cfg) (DEEPSEEK_API_KEY cfg)
    (DEEPSEEK_BASE_URL cfg) (AI_SECRET_KEY cfg) (AI_BASE_URL cfg).

Definition without_deepseek_base_url (cfg : Config) : Config :=
  MkConfig (OPENAI_BASE_URL cfg) (OPENAI_SECRET_KEY cfg) (DEEPSEEK_API_KEY cfg)
    None (AI_SECRET_KEY cfg) (AI_BASE_URL cfg).

(** A base URL [normalizeBaseUrl] turns down: it is given, and it lacks
    the http(s) protocol or does not parse. *)
Definition malformed `{UrlApi} (url : string) : Prop :=
  url ≠ "" ∧ (has_protocol url = false ∨ url_parse url = None).

(** A revision treats a malformed [OPENAI_BASE_URL] as absent when the
    client it selects is the one it selects without the URL. *)
Definition malformed_openai_url_as_absent `{UrlApi}
    (aiClient : Config → option Client) : Prop :=
  ∀ cfg url,
    OPENAI_BASE_URL cfg = Some url → malformed url →
    aiClient cfg = aiClient (without_openai_base_url cfg).

(** ** The diagnostics of the revision with [normalizeBaseUrl] *)

(** The variables of [process.env] the module reads itself. *)
Record ProcessEnv := MkEnv {
  NODE_ENV : option string;
  ADMIN_DEBUG_TOOLS_ENABLED : option string;
  VERCEL_ENV : option string }.

(** A call [console.log(label, { ... })]: the label and the properties
    of the object, in the order they are written. *)
Record LogCall := MkLog {
  log_label : string;
  log_fields : list (string * JsValue) }.

Module ValidatedDebug.
Section WithUrl.
Context `{UrlApi}.

(** [key ? yes : no]. *)
Definition tell (key : option string) (yes no : string) : JsValue :=
  JsString (if truthy (of_env key) then yes else no).

(** [!!client]. *)
Definition has (c : option Client) : JsValue :=
  JsBool (match c with Some _ => true | None => false end).

(** The two [if] blocks after the constants. *)
Definition debugLogging (env : ProcessEnv) (cfg : Config) : list LogCall :=
  ((if match NODE_ENV env with
       | Some v => String.eqb v "development"
       | None => false
       end
       || truthy (of_env (ADMIN_DEBUG_TOOLS_ENABLED env))
       || truthy (of_env (VERCEL_ENV env))
    then
      [MkLog "AI Client Configuration:"
         [("IS_DEEPSEEK", Validated.IS_DEEPSEEK cfg);
          ("hasOpenai", has (Validated.openai cfg));
          ("hasDeepseek", has (Validated.deepseek cfg));
          ("hasAIClient", has (Validated.aiClient cfg));
          ("DEEPSEEK_API_KEY",
           tell (DEEPSEEK_API_KEY cfg) "configured" "not configured");
          ("DEEPSEEK_BASE_URL", of_env (DEEPSEEK_BASE_URL cfg));
          ("normalizedDeepseekBaseUrl",
           of_env (Validated.normalizedDeepseekBaseUrl cfg));
          ("OPENAI_API_KEY",
           tell (OPENAI_SECRET_KEY cfg) "configured" "not configured");
          ("OPENAI_BASE_URL", of_env (OPENAI_BASE_URL cfg));
          ("normalizedOpenaiBaseUrl",
           of_env (Validated.normalizedOpenaiBaseUrl cfg));
          ("safeOpenaiBaseUrl", of_env (Validated.safeOpenaiBaseUrl cfg));
          ("MODEL", JsString (Validated.MODEL cfg));
          ("NODE_ENV", of_env (NODE_ENV env));
          ("VERCEL_ENV", of_env (VERCEL_ENV env))]]
    else [])
   ++
   (if truthy (of_env (VERCEL_ENV env))
    then
      [MkLog "OpenAI Client Creation Params:"
         [("apiKey", tell (OPENAI_SECRET_KEY cfg) "present" "missing");
          ("normalizedOpenaiBaseUrl",
           of_env (Validated.normalizedOpenaiBaseUrl cfg));
          ("safeOpenaiBaseUrl", of_env (Validated.safeOpenaiBaseUrl cfg))];
       MkLog "DeepSeek Client Creation Params:"
         [("apiKey", tell (DEEPSEEK_API_KEY cfg) "present" "missing");
          ("deepseekBaseUrl", of_env (DEEPSEEK_BASE_URL cfg));
          ("normalizedDeepseekBaseUrl",
           of_env (Validated.normalizedDeepseekBaseUrl cfg))]]
    else []))%list.

End WithUrl.
End ValidatedDebug.

(** ** What the further properties speak of *)

(** The rejections of detached calls: nobody awaits them, so no caller
    sees them. *)
Definition unhandled_rejections {Schema : Type} (t : list (Event Schema))
    : list Error :=
  e ← t;
  match e with
  | Detached _ (Some err) => [err]
  | _ => []
  end.

Definition is_stream_done {Schema : Type} (e : Event Schema) : bool :=
  match e with
  | StreamDone => true
  | _ => false
  end.

(** How often [stream.done()] is called. *)
Definition done_calls {Schema : Type} (t : list (Event Schema)) : nat :=
  length (List.filter is_stream_done (flatten t)).

(** The configuration with the two base URLs replaced. *)
Definition with_base_urls (openai_url deepseek_url : option string)
    (cfg : Config) : Config :=
  MkConfig openai_url (OPENAI_SECRET_KEY cfg) (DEEPSEEK_API_KEY cfg)
    deepseek_url (AI_SECRET_KEY cfg) (AI_BASE_URL cfg).

(** The configuration with another [DEEPSEEK_API_KEY]. *)
Definition with_deepseek_api_key (key : option string) (cfg : Config)
    : Config :=
  MkConfig (OPENAI_BASE_URL cfg) (OPENAI_SECRET_KEY cfg) key
    (DEEPSEEK_BASE_URL cfg) (AI_SECRET_KEY cfg) (AI_BASE_URL cfg).

(** Two keys that are the same, or both set (truthy). *)
Definition same_or_both_set (a b : option string) : Prop :=
  a = b ∨ (is_Some (present a) ∧ is_Some (present b)).

(** Two configurations that differ at most in the values of keys that
    are set in both. *)
Definition same_up_to_keys (cfg cfg' : Config) : Prop :=
  OPENAI_BASE_URL cfg = OPENAI_BASE_URL cfg'
  ∧ DEEPSEEK_BASE_URL cfg = DEEPSEEK_BASE_URL cfg'
  ∧ same_or_both_set (OPENAI_SECRET_KEY cfg) (OPENAI_SECRET_KEY cfg')
  ∧ same_or_both_set (DEEPSEEK_API_KEY cfg) (DEEPSEEK_API_KEY cfg').

(** The model name that goes with a provider. *)
Definition model_of (p : Provider) : string :=
  match p with
  | Deepseek => DEEPSEEK_MODEL
  | Openai => OPENAI_MODEL
  end.

(** Whether [normalizeBaseUrl] rewrites the path of a parsed URL. *)
Definition rewrites `{UrlApi} (provider : option Provider) (parsed : URL)
    : bool :=
  match provider with Some Deepseek => true | _ => false end
  && negb (endsWith "/v1" (pathname parsed)).

(** The URL it writes then. *)
Definition rewritten `{UrlApi} (parsed : URL) : string :=
  url_toString
    (set_pathname
       (if endsWith "/" (pathname parsed)
        then pathname parsed +:+ "v1"
        else pathname parsed +:+ "/v1")
       parsed).

(** Collaborators that fail, to run the operations on. *)
Module Faulty.

(** The text stream breaks after two fragments. *)
Definition broken_stream : Collaborators unit := {|
  rateLimit := λ _, None;
  generateText := λ _, Rejected (MkError "provider down");
  streamText := λ _, MkTextStream ["A "; "cat"] (Some (MkError "reset"));
  generateObject := λ _, Rejected (MkError "provider down");
  removeBase64Prefix := Sample.strip_png_prefix;
  cleanUpAiTextResponse := Sample.strip_quotes |}.

(** Both providers configured, with well-formed URLs. *)
Definition both : Config :=
  MkConfig (Some "https://api.openai.com/v1") (Some "sk-openai")
    (Some "sk-deepseek") (Some "https://api.deepseek.com")
    (Some "sk-deepseek") None.

(** The same with other keys. *)
Definition both_other_keys : Config :=
  MkConfig (Some "https://api.openai.com/v1") (Some "sk-other")
    (Some "sk-another") (Some "https://api.deepseek.com")
    (Some "sk-deepseek") None.

(** An OpenAI key next to an OpenAI base URL that points at DeepSeek. *)
Definition openai_at_deepseek : Config :=
  MkConfig (Some "https://api.deepseek.com/v1") (Some "sk-openai")
    None None None None.

Definition vercel : ProcessEnv :=
  MkEnv (Some "production") None (Some "preview").

End Faulty.

(** ** Configured providers *)




(** A revision selects DeepSeek when DeepSeek alone is configured, with
    its key and a well-formed base URL (one that contains [deepseek],
    to pass the test of either revision). *)
Definition deepseek_alone_selects_deepseek `{UrlApi}
    (aiClient : Config → option Client) : Prop :=
  ∀ cfg key url parsed,
    present (DEEPSEEK_API_KEY cfg) = Some key →
    DEEPSEEK_BASE_URL cfg = Some url →
    has_protocol url = true → url_parse url = Some parsed →
    includes "deepseek" url = true →
    present (OPENAI_SECRET_KEY cfg) = None →
    ∃ c, aiClient cfg = Some c ∧ provider c = Deepseek.

(** Collaborators whose answers carry double quotes, which the stand-in
    for [cleanUpAiTextResponse] drops. *)
Module Quoted.

Definition quote : string := String (ascii_of_nat 34) "".

Definition answers : Collaborators unit := {|
  rateLimit := λ _, None;
  generateText := λ _, Resolved (MkTextResult (quote +:+ "A cat" +:+ quote));
  streamText := λ _, MkTextStream [quote +:+ "A "; "cat" +:+ quote] None;
  generateObject := λ _,
    Resolved (MkObjectResult (Some {[ "title" := quote +:+ "Cat" +:+ quote ]}));
  removeBase64Prefix := Sample.strip_png_prefix;
  cleanUpAiTextResponse := Sample.strip_quotes |}.

(** DeepSeek's key and base URL, and nothing else. *)
Definition deepseek_key_and_url : Config :=
  MkConfig None None (Some "sk-deepseek") (Some "https://api.deepseek.com")
    None None.

(** DeepSeek's key and a base URL without protocol, and nothing else. *)
Definition deepseek_key_and_bare_url : Config :=
  MkConfig None None (Some "sk-deepseek") (Some "api.deepseek.com")
    None None.

End Quoted.

(** * Properties *)

(** ** The query operations *)

(** Unfolds an operation down to its trace and outcome. *)
Ltac run :=
  unfold streamOpenAiImageQuery, generateOpenAiImageQuery,
    generateOpenAiImageObjectQuery, testOpenAiConnection,
    getImageTextArgs, checkRateLimitAndThrow, detach, settle, throw, emit,
    mbind, async_bind, mret, async_ret;
  cbn [trace outcome app].

Section QueryFacts.
Context {Schema : Type} (w : Collaborators Schema).
Context (aiClient : option Client) (MODEL : string).

Lemma checkRateLimitAndThrow_throws isBatch e :
  rateLimit w (rateLimitOptions isBatch) = Some e →
  checkRateLimitAndThrow w isBatch
  = MkAsync [RateLimitChecked (rateLimitOptions isBatch)] (Rejected e).
Proof. intros Hlimit. run. by rewrite Hlimit. Qed.

Lemma checkRateLimitAndThrow_passes isBatch :
  rateLimit w (rateLimitOptions isBatch) = None →
  checkRateLimitAndThrow w isBatch
  = MkAsync [RateLimitChecked (rateLimitOptions isBatch)] (Resolved ()).
Proof. intros Hlimit. run. by rewrite Hlimit. Qed.

(** The loop pushes one update per fragment, in order, and ends the
    way the iteration ends. *)
Lemma for_await_updates (f : string → string) ds fail :
  for_await (λ delta, emit (StreamUpdated (f delta))) ds fail
  = MkAsync (Schema := Schema) ((λ d, StreamUpdated (f d)) <$> ds)
      (match fail with
       | None => Resolved ()
       | Some e => Rejected e
       end).
Proof.
  induction ds as [|d ds IH]; simpl.
  - by destruct fail.
  - rewrite IH. unfold mbind, async_bind, emit. simpl. by destruct fail.
Qed.

Lemma stream_updates_of_updates (f : string → string) (ds : list string) :
  mbind (M := list)
    (λ e : Event Schema,
       match e with
       | StreamUpdated v => [v]
       | _ => []
       end)
    ((λ d, StreamUpdated (f d)) <$> ds) = f <$> ds.
Proof.
  induction ds as [|d ds IH]; [done|].
  rewrite !fmap_cons, bind_cons, IH. done.
Qed.

(** [Object.fromEntries] over the mapped entries is the map with [f]
    applied to every value. *)
Lemma map_entries_fmap (f : string → string) (o : gmap string string) :
  map_entries f o = f <$> o.
Proof.
  unfold map_entries.
  rewrite <- (list_to_map_to_list (f <$> o)).
  apply list_to_map_proper.
  - rewrite <- list_fmap_compose.
    replace (fst ∘ (λ kv : string * string, (kv.1, f kv.2))) with (@fst string string)
      by done.
    apply NoDup_fst_map_to_list.
  - rewrite map_to_list_fmap.
    apply reflexive_eq. apply list_fmap_ext. by intros _ [k v] _.
Qed.

(** Without a client the one-shot path asks the limiter and returns
    [undefined]. *)
Lemma generate_without_client img q isBatch :
  rateLimit w (rateLimitOptions isBatch) = None →
  generateOpenAiImageQuery w None MODEL img q isBatch
  = MkAsync [RateLimitChecked (rateLimitOptions isBatch)] (Resolved None).
Proof. intros Hlimit. run. by rewrite Hlimit. Qed.

(** Without a client the streaming path creates the streamable and
    returns it; nothing is pushed to it and it is never closed. *)
Lemma stream_without_client img q :
  rateLimit w (rateLimitOptions None) = None →
  streamOpenAiImageQuery w None MODEL img q
  = MkAsync [RateLimitChecked (rateLimitOptions None); StreamableCreated ""]
      (Resolved (MkStreamable "")).
Proof. intros Hlimit. run. by rewrite Hlimit. Qed.

(** Without a client the structured path throws. *)
Lemma object_without_client img q schema isBatch :
  rateLimit w (rateLimitOptions isBatch) = None →
  generateOpenAiImageObjectQuery w None MODEL img q schema isBatch
  = MkAsync [RateLimitChecked (rateLimitOptions isBatch)]
      (Rejected (MkError "No AI client available")).
Proof. intros Hlimit. run. by rewrite Hlimit. Qed.

(** With a client and the limiter's consent, the streaming path. *)
Lemma stream_with_client client img q :
  rateLimit w (rateLimitOptions None) = None →
  streamOpenAiImageQuery w (Some client) MODEL img q
  = let textStream := streamText w (image_request w MODEL client img q) in
    MkAsync
      [RateLimitChecked (rateLimitOptions None);
       StreamableCreated "";
       Detached
         (StreamTextCalled (image_request w MODEL client img q)
          :: ((λ d, StreamUpdated (cleanUpAiTextResponse w d))
                <$> deltas textStream)
          ++ (match failure textStream with
              | None => [StreamDone]
              | Some _ => []
              end))%list
         (failure textStream)]
      (Resolved (MkStreamable "")).
Proof.
  intros Hlimit. unfold streamOpenAiImageQuery, getImageTextArgs.
  rewrite for_await_updates. run. rewrite Hlimit.
  fold (image_request w MODEL client img q).
  destruct (failure (streamText w (image_request w MODEL client img q)));
    cbn [trace outcome app]; by rewrite ?app_nil_r.
Qed.

(** With a client and the limiter's consent, the one-shot path. *)
Lemma generate_with_client client img q isBatch :
  rateLimit w (rateLimitOptions isBatch) = None →
  generateOpenAiImageQuery w (Some client) MODEL img q isBatch
  = MkAsync
      [RateLimitChecked (rateLimitOptions isBatch);
       GenerateTextCalled (image_request w MODEL client img q)]
      (match generateText w (image_request w MODEL client img q) with
       | Resolved result => Resolved (Some (cleanUpAiTextResponse w (text result)))
       | Rejected e => Rejected e
       end).
Proof.
  intros Hlimit. run. rewrite Hlimit. cbn [trace outcome app].
  fold (image_request w MODEL client img q).
  by destruct (generateText w (image_request w MODEL client img q)).
Qed.

(** With a client and the limiter's consent, the structured path. *)
Lemma object_with_client client img q schema isBatch :
  rateLimit w (rateLimitOptions isBatch) = None →
  generateOpenAiImageObjectQuery w (Some client) MODEL img q schema isBatch
  = MkAsync
      [RateLimitChecked (rateLimitOptions isBatch);
       GenerateObjectCalled (object_request w MODEL client img q schema)]
      (match generateObject w (object_request w MODEL client img q schema) with
       | Resolved result =>
         Resolved (cleanUpAiTextResponse w <$> default ∅ (object result))
       | Rejected e => Rejected e
       end).
Proof.
  intros Hlimit. run. rewrite Hlimit. cbn [trace outcome app].
  fold (object_request w MODEL client img q schema).
  destruct (generateObject w (object_request w MODEL client img q schema));
    cbn [trace outcome app]; [|done].
  by rewrite map_entries_fmap.
Qed.

End QueryFacts.

Section QueryClaims.
Context {Schema : Type} (w : Collaborators Schema).
Context (aiClient : option Client) (MODEL : string).

(** When the limiter throws, each operation stops there. *)
Lemma stream_limited img q e :
  rateLimit w (rateLimitOptions None) = Some e →
  streamOpenAiImageQuery w aiClient MODEL img q
  = MkAsync [RateLimitChecked (rateLimitOptions None)] (Rejected e).
Proof. intros Hlimit. run. by rewrite Hlimit. Qed.

Lemma generate_limited img q isBatch e :
  rateLimit w (rateLimitOptions isBatch) = Some e →
  generateOpenAiImageQuery w aiClient MODEL img q isBatch
  = MkAsync [RateLimitChecked (rateLimitOptions isBatch)] (Rejected e).
Proof. intros Hlimit. run. by rewrite Hlimit. Qed.

Lemma object_limited img q schema isBatch e :
  rateLimit w (rateLimitOptions isBatch) = Some e →
  generateOpenAiImageObjectQuery w aiClient MODEL img q schema isBatch
  = MkAsync [RateLimitChecked (rateLimitOptions isBatch)] (Rejected e).
Proof. intros Hlimit. run. by rewrite Hlimit. Qed.

Lemma test_limited e :
  rateLimit w (rateLimitOptions None) = Some e →
  testOpenAiConnection w aiClient MODEL
  = MkAsync [RateLimitChecked (rateLimitOptions None)] (Rejected e).
Proof. intros Hlimit. run. by rewrite Hlimit. Qed.

Lemma test_passed :
  rateLimit w (rateLimitOptions None) = None →
  testOpenAiConnection w aiClient MODEL
  = match aiClient with
    | Some client =>
      let args :=
        MkTextArgs (MkModel client MODEL)
          [MkMessage "user" [TextPart "Test connection"]] in
      MkAsync [RateLimitChecked (rateLimitOptions None); GenerateTextCalled args]
        (match generateText w args with
         | Resolved result => Resolved (Some result)
         | Rejected e => Rejected e
         end)
    | None => MkAsync [RateLimitChecked (rateLimitOptions None)] (Resolved None)
    end.
Proof.
  intros Hlimit. run. rewrite Hlimit. destruct aiClient as [client|]; [|done].
  cbn [trace outcome app]. by destruct (generateText w _).
Qed.

(** The updates of a detached body are no calls of the limiter. *)
Lemma rate_limit_checks_of_updates (f : string → string) (ds : list string) :
  mbind (M := list)
    (λ e : Event Schema,
       match e with
       | RateLimitChecked a => [a]
       | _ => []
       end)
    ((λ d, StreamUpdated (f d)) <$> ds) = [].
Proof.
  induction ds as [|d ds IH]; [done|].
  by rewrite fmap_cons, bind_cons, IH.
Qed.

(** Every operation asks the limiter once, with the options built from
    its [isBatch]. *)
Lemma stream_checks_once img q :
  rate_limit_checks (trace (streamOpenAiImageQuery w aiClient MODEL img q))
  = [rateLimitOptions None].
Proof.
  destruct (rateLimit w (rateLimitOptions None)) as [e|] eqn:Hlimit.
  { by rewrite (stream_limited _ _ e). }
  destruct aiClient as [client|].
  - rewrite stream_with_client by done.
    unfold rate_limit_checks, flatten. cbn [trace].
    rewrite !bind_cons. cbn [mbind list_bind app]. rewrite app_nil_r.
    rewrite bind_app, rate_limit_checks_of_updates.
    by destruct (failure _).
  - by rewrite stream_without_client.
Qed.

Lemma generate_checks_once img q isBatch :
  rate_limit_checks (trace (generateOpenAiImageQuery w aiClient MODEL img q isBatch))
  = [rateLimitOptions isBatch].
Proof.
  destruct (rateLimit w (rateLimitOptions isBatch)) as [e|] eqn:Hlimit.
  { by rewrite (generate_limited _ _ _ e). }
  destruct aiClient as [client|].
  - by rewrite generate_with_client.
  - by rewrite generate_without_client.
Qed.

Lemma object_checks_once img q schema isBatch :
  rate_limit_checks
    (trace (generateOpenAiImageObjectQuery w aiClient MODEL img q schema isBatch))
  = [rateLimitOptions isBatch].
Proof.
  destruct (rateLimit w (rateLimitOptions isBatch)) as [e|] eqn:Hlimit.
  { by rewrite (object_limited _ _ _ _ e). }
  destruct aiClient as [client|].
  - by rewrite object_with_client.
  - by rewrite object_without_client.
Qed.

Lemma test_checks_once :
  rate_limit_checks (trace (testOpenAiConnection w aiClient MODEL))
  = [rateLimitOptions None].
Proof.
  destruct (rateLimit w (rateLimitOptions None)) as [e|] eqn:Hlimit.
  { by rewrite (test_limited e). }
  rewrite test_passed by done. by destruct aiClient.
Qed.

End QueryClaims.

Section QueryTheorems.
Context {Schema : Type} (w : Collaborators Schema).
Context (aiClient : option Client) (MODEL : string).

(** C2.  When no provider is configured ([aiClient] is [undefined]) and
    the limiter lets the call through, [generateOpenAiImageQuery]
    resolves to [undefined] and [streamOpenAiImageQuery] resolves to a
    streamable that holds the empty string and receives no update,
    neither of them calling a provider; [generateOpenAiImageObjectQuery]
    throws an error whose message is [No AI client available]. *)
Theorem missing_client_semantics img q schema isBatch :
  (rateLimit w (rateLimitOptions isBatch) = None →
   generateOpenAiImageQuery w None MODEL img q isBatch
   = MkAsync [RateLimitChecked (rateLimitOptions isBatch)] (Resolved None))
  ∧ (rateLimit w (rateLimitOptions None) = None →
     streamOpenAiImageQuery w None MODEL img q
     = MkAsync [RateLimitChecked (rateLimitOptions None); StreamableCreated ""]
         (Resolved (MkStreamable ""))
     ∧ stream_updates (trace (streamOpenAiImageQuery w None MODEL img q)) = [])
  ∧ (rateLimit w (rateLimitOptions isBatch) = None →
     generateOpenAiImageObjectQuery w None MODEL img q schema isBatch
     = MkAsync [RateLimitChecked (rateLimitOptions isBatch)]
         (Rejected (MkError "No AI client available"))).
Proof.
  split; [|split].
  - apply generate_without_client.
  - intros Hlimit. by rewrite stream_without_client.
  - apply object_without_client.
Qed.

(** C3.  Each of the three query operations starts with the rate-limit
    check, and when the limiter throws, the operation rejects with the
    limiter's error having done nothing else: no request to a provider
    ([generateText], [streamText], [generateObject]) is made. *)
Theorem rate_limit_before_provider img q schema isBatch :
  (∃ rest,
     trace (streamOpenAiImageQuery w aiClient MODEL img q)
     = RateLimitChecked (rateLimitOptions None) :: rest)
  ∧ (∃ rest,
       trace (generateOpenAiImageQuery w aiClient MODEL img q isBatch)
       = RateLimitChecked (rateLimitOptions isBatch) :: rest)
  ∧ (∃ rest,
       trace (generateOpenAiImageObjectQuery w aiClient MODEL img q schema isBatch)
       = RateLimitChecked (rateLimitOptions isBatch) :: rest)
  ∧ (∀ e, rateLimit w (rateLimitOptions None) = Some e →
       let run := streamOpenAiImageQuery w aiClient MODEL img q in
       outcome run = Rejected e
       ∧ trace run = [RateLimitChecked (rateLimitOptions None)]
       ∧ provider_requests (trace run) = [])
  ∧ (∀ e, rateLimit w (rateLimitOptions isBatch) = Some e →
       let run := generateOpenAiImageQuery w aiClient MODEL img q isBatch in
       outcome run = Rejected e
       ∧ trace run = [RateLimitChecked (rateLimitOptions isBatch)]
       ∧ provider_requests (trace run) = [])
  ∧ (∀ e, rateLimit w (rateLimitOptions isBatch) = Some e →
       let run :=
         generateOpenAiImageObjectQuery w aiClient MODEL img q schema isBatch in
       outcome run = Rejected e
       ∧ trace run = [RateLimitChecked (rateLimitOptions isBatch)]
       ∧ provider_requests (trace run) = []).
Proof.
  repeat split.
  - destruct (rateLimit w (rateLimitOptions None)) as [e|] eqn:Hlimit.
    + rewrite (stream_limited _ _ _ _ _ e) by done. by eexists.
    + destruct aiClient.
      * rewrite stream_with_client by done. by eexists.
      * rewrite stream_without_client by done. by eexists.
  - destruct (rateLimit w (rateLimitOptions isBatch)) as [e|] eqn:Hlimit.
    + rewrite (generate_limited _ _ _ _ _ _ e) by done. by eexists.
    + destruct aiClient.
      * rewrite generate_with_client by done. by eexists.
      * rewrite generate_without_client by done. by eexists.
  - destruct (rateLimit w (rateLimitOptions isBatch)) as [e|] eqn:Hlimit.
    + rewrite (object_limited _ _ _ _ _ _ _ e) by done. by eexists.
    + destruct aiClient.
      * rewrite object_with_client by done. by eexists.
      * rewrite object_without_client by done. by eexists.
  - by rewrite (stream_limited _ _ _ _ _ e).
  - by rewrite (stream_limited _ _ _ _ _ e).
  - by rewrite (stream_limited _ _ _ _ _ e).
  - by rewrite (generate_limited _ _ _ _ _ _ e).
  - by rewrite (generate_limited _ _ _ _ _ _ e).
  - by rewrite (generate_limited _ _ _ _ _ _ e).
  - by rewrite (object_limited _ _ _ _ _ _ _ e).
  - by rewrite (object_limited _ _ _ _ _ _ _ e).
  - by rewrite (object_limited _ _ _ _ _ _ _ e).
Qed.

(** C4.  In streaming mode the values pushed to the streamable are the
    fragments of the text stream, each passed through
    [cleanUpAiTextResponse], in order (also when the stream fails after
    some fragments); in structured mode, when the provider answers, the
    object returned is the provider's object with
    [cleanUpAiTextResponse] applied to every value, and no object is
    ever returned that is not of this form. *)
Theorem cleanup_coverage client img q schema isBatch :
  (rateLimit w (rateLimitOptions None) = None →
   stream_updates (trace (streamOpenAiImageQuery w (Some client) MODEL img q))
   = cleanUpAiTextResponse w
       <$> deltas (streamText w (image_request w MODEL client img q)))
  ∧ (∀ result,
       rateLimit w (rateLimitOptions isBatch) = None →
       generateObject w (object_request w MODEL client img q schema)
       = Resolved result →
       outcome (generateOpenAiImageObjectQuery w (Some client) MODEL img q
                  schema isBatch)
       = Resolved (cleanUpAiTextResponse w <$> default ∅ (object result))
       ∧ ∀ k, (cleanUpAiTextResponse w <$> default ∅ (object result)) !! k
              = cleanUpAiTextResponse w <$> (default ∅ (object result) !! k))
  ∧ (∀ returned,
       outcome (generateOpenAiImageObjectQuery w aiClient MODEL img q schema isBatch)
       = Resolved returned →
       ∃ client' result,
         aiClient = Some client'
         ∧ generateObject w (object_request w MODEL client' img q schema)
           = Resolved result
         ∧ returned = cleanUpAiTextResponse w <$> default ∅ (object result)
         ∧ ∀ k, returned !! k
                = cleanUpAiTextResponse w <$> default ∅ (object result) !! k).
Proof.
  split; [|split].
  - intros Hlimit. rewrite stream_with_client by done.
    unfold stream_updates, flatten. cbn [trace].
    rewrite !bind_cons. cbn [mbind list_bind app]. rewrite app_nil_r.
    rewrite bind_app, stream_updates_of_updates.
    destruct (failure _); cbn [mbind list_bind]; by rewrite app_nil_r.
  - intros result Hlimit Hresult. rewrite object_with_client by done.
    cbn [outcome]. rewrite Hresult. split; [done|].
    intros k. by rewrite lookup_fmap.
  - intros returned Hreturned.
    destruct (rateLimit w (rateLimitOptions isBatch)) as [e|] eqn:Hlimit.
    { by rewrite (object_limited _ _ _ _ _ _ _ e) in Hreturned. }
    destruct aiClient as [client'|].
    + rewrite object_with_client in Hreturned by done. cbn [outcome] in Hreturned.
      destruct (generateObject w _) as [result|] eqn:Hresult; [|done].
      injection Hreturned as <-. exists client', result.
      repeat split; [done|]. intros k. by rewrite lookup_fmap.
    + by rewrite object_without_client in Hreturned.
Qed.

(** C5.  The request descriptor [getImageTextArgs] builds, and the one
    the structured path builds, hold the prompt unchanged as the text
    segment and [removeBase64Prefix] of the image input as the image
    segment; these are the requests the three operations send. *)
Theorem image_prefix_removed client img q schema isBatch :
  getImageTextArgs w (Some client) MODEL img q
  = Some (MkTextArgs (MkModel client MODEL)
            [MkMessage "user"
               [TextPart q; ImagePart (removeBase64Prefix w img)]])
  ∧ (rateLimit w (rateLimitOptions isBatch) = None →
     provider_requests
       (trace (generateOpenAiImageObjectQuery w (Some client) MODEL img q
                 schema isBatch))
     = [GenerateObjectCalled
          (MkObjectArgs (MkModel client MODEL)
             [MkMessage "user"
                [TextPart q; ImagePart (removeBase64Prefix w img)]]
             schema)])
  ∧ (rateLimit w (rateLimitOptions isBatch) = None →
     provider_requests
       (trace (generateOpenAiImageQuery w (Some client) MODEL img q isBatch))
     = [GenerateTextCalled
          (MkTextArgs (MkModel client MODEL)
             [MkMessage "user"
                [TextPart q; ImagePart (removeBase64Prefix w img)]])])
  ∧ (rateLimit w (rateLimitOptions None) = None →
     provider_requests
       (trace (streamOpenAiImageQuery w (Some client) MODEL img q))
     = [StreamTextCalled
          (MkTextArgs (MkModel client MODEL)
             [MkMessage "user"
                [TextPart q; ImagePart (removeBase64Prefix w img)]])]).
Proof.
  split; [done|]. split; [|split]; intros Hlimit.
  - by rewrite object_with_client.
  - by rewrite generate_with_client.
  - rewrite stream_with_client by done.
    unfold provider_requests, flatten. cbn [trace].
    rewrite !bind_cons. cbn [mbind list_bind app]. rewrite app_nil_r.
    cbn [List.filter is_provider_request]. f_equal.
    rewrite List.filter_app.
    replace (List.filter _ (_ <$> _)) with (@nil (Event Schema)).
    + by destruct (failure _).
    + induction (deltas _) as [|d ds IH]; [done|]. by rewrite fmap_cons.
Qed.

(** C9.  With a provider configured and the limiter's consent, when
    [generateObject] resolves with a [null] or [undefined] object,
    [generateOpenAiImageObjectQuery] resolves to the empty object. *)
Theorem null_object_gives_empty_object client img q schema isBatch :
  rateLimit w (rateLimitOptions isBatch) = None →
  generateObject w (object_request w MODEL client img q schema)
  = Resolved (MkObjectResult None) →
  outcome (generateOpenAiImageObjectQuery w (Some client) MODEL img q schema isBatch)
  = Resolved ∅.
Proof.
  intros Hlimit Hnull. rewrite object_with_client by done.
  cbn [outcome]. rewrite Hnull. cbn [object default]. by rewrite fmap_empty.
Qed.

(** C10.  Every operation, [testOpenAiConnection] included, calls the
    limiter once, with the identifier [openai-image-query]; the budget
    ([tokens: 1200], [duration: '1d']) is part of the options exactly
    when [isBatch] is [true], so the streaming and the test-connection
    calls never carry one. *)
Theorem rate_limit_options_invariant img q schema isBatch :
  let plain := MkRateLimitArgs "openai-image-query" None None in
  let batch := MkRateLimitArgs "openai-image-query" (Some 1200) (Some "1d") in
  let expected := if decide (isBatch = Some true) then batch else plain in
  rate_limit_checks (trace (streamOpenAiImageQuery w aiClient MODEL img q))
  = [plain]
  ∧ rate_limit_checks (trace (testOpenAiConnection w aiClient MODEL))
    = [plain]
  ∧ rate_limit_checks
      (trace (generateOpenAiImageQuery w aiClient MODEL img q isBatch))
    = [expected]
  ∧ rate_limit_checks
      (trace (generateOpenAiImageObjectQuery w aiClient MODEL img q schema isBatch))
    = [expected].
Proof.
  intros plain batch expected.
  rewrite stream_checks_once, test_checks_once, generate_checks_once,
    object_checks_once.
  assert (rateLimitOptions isBatch = expected) as ->; [|done].
  subst expected. by destruct isBatch as [[]|].
Qed.

End QueryTheorems.

(** The operations run on the stand-in collaborators. *)

Lemma missing_client_semantics_witness :
  generateOpenAiImageQuery Sample.open_world None OPENAI_MODEL "AAAA"
    "Describe" (Some true)
  = MkAsync [RateLimitChecked (rateLimitOptions (Some true))] (Resolved None)
  ∧ streamOpenAiImageQuery Sample.open_world None OPENAI_MODEL "AAAA" "Describe"
    = MkAsync [RateLimitChecked (rateLimitOptions None); StreamableCreated ""]
        (Resolved (MkStreamable ""))
  ∧ generateOpenAiImageObjectQuery Sample.open_world None OPENAI_MODEL "AAAA"
      "Describe" () (Some true)
    = MkAsync [RateLimitChecked (rateLimitOptions (Some true))]
        (Rejected (MkError "No AI client available")).
Proof.
  destruct (missing_client_semantics Sample.open_world OPENAI_MODEL "AAAA"
              "Describe" () (Some true)) as (Hgenerate & Hstream & Hobject).
  split; [|split].
  - apply Hgenerate. reflexivity.
  - apply Hstream. reflexivity.
  - apply Hobject. reflexivity.
Defined.

Lemma rate_limit_before_provider_witness :
  outcome (streamOpenAiImageQuery Sample.limited_world
             (Some Sample.openai_client) OPENAI_MODEL "AAAA" "Describe")
  = Rejected (MkError "Too many requests")
  ∧ provider_requests
      (trace (generateOpenAiImageQuery Sample.limited_world
                (Some Sample.openai_client) OPENAI_MODEL "AAAA" "Describe"
                (Some true))) = []
  ∧ provider_requests
      (trace (generateOpenAiImageObjectQuery Sample.limited_world
                (Some Sample.openai_client) OPENAI_MODEL "AAAA" "Describe" ()
                (Some true))) = [].
Proof.
  destruct (rate_limit_before_provider Sample.limited_world
              (Some Sample.openai_client) OPENAI_MODEL "AAAA" "Describe" ()
              (Some true))
    as (_ & _ & _ & Hstream & Hgenerate & Hobject).
  split; [|split].
  - apply (Hstream (MkError "Too many requests")). reflexivity.
  - apply (Hgenerate (MkError "Too many requests")). reflexivity.
  - apply (Hobject (MkError "Too many requests")). reflexivity.
Defined.

Lemma cleanup_coverage_witness :
  stream_updates
    (trace (streamOpenAiImageQuery Quoted.answers
              (Some Sample.openai_client) OPENAI_MODEL "AAAA" "Describe"))
  = ["A "; "cat"]
  ∧ ∃ returned,
      outcome (generateOpenAiImageObjectQuery Quoted.answers
                 (Some Sample.openai_client) OPENAI_MODEL "AAAA" "Describe" ()
                 None)
      = Resolved returned
      ∧ returned !! "title" = Some "Cat".
Proof.
  pose proof (cleanup_coverage Quoted.answers (Some Sample.openai_client)
                OPENAI_MODEL Sample.openai_client "AAAA" "Describe" () None)
    as (Hstream & Hobject & _).
  split.
  - exact (Hstream eq_refl).
  - destruct (Hobject
                (MkObjectResult
                   (Some {[ "title" := Quoted.quote +:+ "Cat" +:+ Quoted.quote ]}))
                eq_refl eq_refl) as (Hreturned & Hvalues).
    eexists. split; [exact Hreturned|].
    rewrite Hvalues.
    change (default ∅ (object _))
      with ({[ "title" := Quoted.quote +:+ "Cat" +:+ Quoted.quote ]}
            : gmap string string).
    rewrite lookup_singleton_eq. reflexivity.
Defined.

Lemma image_prefix_removed_witness :
  provider_requests
    (trace (generateOpenAiImageObjectQuery Sample.open_world
              (Some Sample.openai_client) OPENAI_MODEL
              "data:image/png;base64,AAAA" "Describe" () None))
  = [GenerateObjectCalled
       (MkObjectArgs (MkModel Sample.openai_client OPENAI_MODEL)
          [MkMessage "user" [TextPart "Describe"; ImagePart "AAAA"]] ())].
Proof.
  apply (image_prefix_removed Sample.open_world OPENAI_MODEL
           Sample.openai_client "data:image/png;base64,AAAA" "Describe" ()
           None).
  reflexivity.
Defined.

Lemma null_object_gives_empty_object_witness :
  outcome (generateOpenAiImageObjectQuery Sample.open_world
             (Some Sample.openai_client) OPENAI_MODEL "AAAA" "Describe" () None)
  = Resolved ∅.
Proof.
  apply (null_object_gives_empty_object Sample.open_world OPENAI_MODEL
           Sample.openai_client "AAAA" "Describe" () None); reflexivity.
Defined.

(** ** Provider selection *)

Lemma truthy_of_env_present v s :
  present v = Some s → truthy (of_env v) = true.
Proof.
  destruct v as [x|]; [|done]. simpl.
  by destruct (String.eqb x "").
Qed.

Lemma truthy_of_env_absent v :
  present v = None → truthy (of_env v) = false.
Proof.
  destruct v as [x|]; [|done]. simpl.
  by destruct (String.eqb x "").
Qed.

Lemma present_Some v s : present v = Some s → v = Some s ∧ s ≠ "".
Proof.
  destruct v as [x|]; [|done]. simpl.
  destruct (String.eqb_spec x ""); [done|]. by intros [= <-].
Qed.

Lemma present_of_Some s : s ≠ "" → present (Some s) = Some s.
Proof. intros Hs. simpl. by destruct (String.eqb_spec s ""). Qed.


Section ValidatedSelection.
Context `{UrlApi}.

Lemma validated_IS_DEEPSEEK_true cfg key url :
  present (DEEPSEEK_API_KEY cfg) = Some key →
  present (Validated.normalizedDeepseekBaseUrl cfg) = Some url →
  truthy (Validated.IS_DEEPSEEK cfg) = true.
Proof.
  intros Hkey Hurl. unfold Validated.IS_DEEPSEEK, js_and.
  rewrite (truthy_of_env_present _ _ Hkey). simpl.
  apply (truthy_of_env_present _ _ Hurl).
Qed.

Lemma validated_IS_DEEPSEEK_false cfg :
  present (DEEPSEEK_API_KEY cfg) = None
  ∨ present (Validated.normalizedDeepseekBaseUrl cfg) = None →
  truthy (Validated.IS_DEEPSEEK cfg) = false.
Proof.
  intros Hmissing. unfold Validated.IS_DEEPSEEK, js_and.
  destruct (truthy (of_env (DEEPSEEK_API_KEY cfg))) eqn:Hkey; [|done].
  destruct Hmissing as [Hmissing|Hmissing].
  - by rewrite (truthy_of_env_absent _ Hmissing) in Hkey.
  - simpl. apply (truthy_of_env_absent _ Hmissing).
Qed.

Lemma validated_selects_deepseek cfg key url :
  present (DEEPSEEK_API_KEY cfg) = Some key →
  present (Validated.normalizedDeepseekBaseUrl cfg) = Some url →
  Validated.aiClient cfg = Some (createDeepSeek key (Some url))
  ∧ Validated.MODEL cfg = DEEPSEEK_MODEL.
Proof.
  intros Hkey Hurl. unfold Validated.aiClient, Validated.MODEL.
  rewrite (validated_IS_DEEPSEEK_true _ _ _ Hkey Hurl).
  unfold Validated.deepseek. by rewrite Hkey, Hurl.
Qed.

Lemma validated_selects_openai cfg :
  present (DEEPSEEK_API_KEY cfg) = None
  ∨ present (Validated.normalizedDeepseekBaseUrl cfg) = None →
  Validated.aiClient cfg = Validated.openai cfg
  ∧ Validated.MODEL cfg = OPENAI_MODEL.
Proof.
  intros Hmissing. unfold Validated.aiClient, Validated.MODEL.
  by rewrite (validated_IS_DEEPSEEK_false _ Hmissing).
Qed.

End ValidatedSelection.

(** [src/platforms/openai.ts] selects DeepSeek when [DEEPSEEK_API_KEY]
    is set and one of the two base URLs contains [deepseek]. *)
Lemma openai_ts_IS_DEEPSEEK cfg :
  truthy (OpenAiTs.IS_DEEPSEEK cfg)
  = truthy (of_env (DEEPSEEK_API_KEY cfg))
    && (truthy (includes_deepseek (DEEPSEEK_BASE_URL cfg))
        || truthy (includes_deepseek (OPENAI_BASE_URL cfg))).
Proof.
  unfold OpenAiTs.IS_DEEPSEEK, js_and, js_or.
  destruct (truthy (of_env (DEEPSEEK_API_KEY cfg))) eqn:Hkey; [|by rewrite Hkey].
  simpl. by destruct (truthy (includes_deepseek (DEEPSEEK_BASE_URL cfg))) eqn:Hurl.
Qed.

(** ** Malformed base URLs *)

Section ValidatedUrls.
Context `{UrlApi}.

Lemma has_protocol_false url :
  has_protocol url = false →
  negb (startsWith "http://" url) && negb (startsWith "https://" url) = true.
Proof. unfold has_protocol. by destruct (startsWith _ _), (startsWith _ _). Qed.

Lemma has_protocol_true url :
  has_protocol url = true →
  negb (startsWith "http://" url) && negb (startsWith "https://" url) = false.
Proof. unfold has_protocol. by destruct (startsWith _ _), (startsWith _ _). Qed.

(** A malformed URL gives [undefined] and one warning. *)
Lemma normalizeBaseUrl_malformed url provider :
  malformed url →
  ∃ w, Validated.normalizeBaseUrl (Some url) provider = (None, [w])
       ∧ warning w
         = "Invalid " +:+ Validated.provider_text provider
           +:+ (if has_protocol url then " base URL (parse error): "
                else " base URL (missing protocol): ")
           +:+ url.
Proof.
  intros [Hgiven Hbad]. unfold Validated.normalizeBaseUrl.
  rewrite present_of_Some by done.
  destruct (has_protocol url) eqn:Hprotocol.
  - destruct Hbad as [?|Hparse]; [done|].
    rewrite has_protocol_true, Hparse by done. by eexists.
  - rewrite has_protocol_false by done. by eexists.
Qed.

(** An absent URL gives [undefined] and no warning. *)
Lemma normalizeBaseUrl_absent provider :
  Validated.normalizeBaseUrl None provider = (None, []).
Proof. done. Qed.

End ValidatedUrls.

Section MalformedUrls.
Context `{UrlApi}.

Lemma validated_without_openai_url cfg url :
  OPENAI_BASE_URL cfg = Some url → malformed url →
  Validated.safeOpenaiBaseUrl cfg = None
  ∧ Validated.openai cfg = Validated.openai (without_openai_base_url cfg)
  ∧ Validated.aiClient cfg = Validated.aiClient (without_openai_base_url cfg)
  ∧ Validated.MODEL cfg = Validated.MODEL (without_openai_base_url cfg).
Proof.
  intros Hurl Hbad.
  destruct (normalizeBaseUrl_malformed url (Some Openai) Hbad) as (w & Hw & _).
  assert (Validated.safeOpenaiBaseUrl cfg = None) as Hsafe.
  { unfold Validated.safeOpenaiBaseUrl, Validated.normalizedOpenaiBaseUrl.
    by rewrite Hurl, Hw. }
  assert (Validated.openai cfg = Validated.openai (without_openai_base_url cfg))
    as Hopenai.
  { unfold Validated.openai. by rewrite Hsafe. }
  split; [done|]. split; [done|].
  unfold Validated.aiClient, Validated.MODEL. by rewrite Hopenai.
Qed.

Lemma validated_without_deepseek_url cfg url :
  DEEPSEEK_BASE_URL cfg = Some url → malformed url →
  Validated.normalizedDeepseekBaseUrl cfg = None
  ∧ Validated.aiClient cfg = Validated.aiClient (without_deepseek_base_url cfg)
  ∧ Validated.MODEL cfg = Validated.MODEL (without_deepseek_base_url cfg).
Proof.
  intros Hurl Hbad.
  destruct (normalizeBaseUrl_malformed url (Some Deepseek) Hbad) as (w & Hw & _).
  assert (Validated.normalizedDeepseekBaseUrl cfg = None) as Hnone.
  { unfold Validated.normalizedDeepseekBaseUrl. by rewrite Hurl, Hw. }
  split; [done|].
  unfold Validated.aiClient, Validated.MODEL, Validated.IS_DEEPSEEK,
    Validated.deepseek.
  by rewrite Hnone.
Qed.

(** The revision with [normalizeBaseUrl] treats a malformed
    [OPENAI_BASE_URL] as absent. *)
Lemma validated_malformed_openai_url_as_absent :
  malformed_openai_url_as_absent Validated.aiClient.
Proof.
  intros cfg url Hurl Hbad.
  by destruct (validated_without_openai_url cfg url Hurl Hbad) as (_ & _ & ? & _).
Qed.

(** C6, as amended.  In the revision with [normalizeBaseUrl], a
    malformed base URL (given, but without the http(s) protocol or not
    parsing) is logged with one [console.warn] and treated as if it were
    absent: for [OPENAI_BASE_URL] the OpenAI client is created without
    [baseURL]; for [DEEPSEEK_BASE_URL] DeepSeek is disabled and the
    OpenAI client is the active one when [OPENAI_SECRET_KEY] is set.
    The URL can still make a query call fail: when DeepSeek is disabled
    this way and no OpenAI key is set, there is no client, so the
    one-shot path returns nothing and the structured path throws the
    no-client error.  [src/platforms/openai.ts] does not validate base
    URLs: the URL is handed to the client factory as it is. *)
Theorem malformed_base_url_as_absent (cfg : Config) (url : string) :
  malformed url →
  (OPENAI_BASE_URL cfg = Some url →
   (∃ w, Validated.normalizeBaseUrl (Some url) (Some Openai) = (None, [w])
         ∧ w ∈ Validated.warnings cfg)
   ∧ Validated.openai cfg
     = (key ← present (OPENAI_SECRET_KEY cfg); Some (createOpenAI key None))
   ∧ Validated.aiClient cfg = Validated.aiClient (without_openai_base_url cfg)
   ∧ Validated.MODEL cfg = Validated.MODEL (without_openai_base_url cfg))
  ∧ (DEEPSEEK_BASE_URL cfg = Some url →
     (∃ w, Validated.normalizeBaseUrl (Some url) (Some Deepseek) = (None, [w])
           ∧ w ∈ Validated.warnings cfg)
     ∧ Validated.deepseek cfg = None
     ∧ truthy (Validated.IS_DEEPSEEK cfg) = false
     ∧ Validated.aiClient cfg = Validated.aiClient (without_deepseek_base_url cfg)
     ∧ Validated.MODEL cfg = Validated.MODEL (without_deepseek_base_url cfg)
     ∧ Validated.MODEL cfg = OPENAI_MODEL
     ∧ (∀ key,
          present (OPENAI_SECRET_KEY cfg) = Some key →
          Validated.aiClient cfg
          = Some (createOpenAI key (present (Validated.safeOpenaiBaseUrl cfg))))
     ∧ (present (OPENAI_SECRET_KEY cfg) = None →
        Validated.aiClient cfg = None
        ∧ ∀ Schema (w : Collaborators Schema) img q schema isBatch,
            rateLimit w (rateLimitOptions isBatch) = None →
            generateOpenAiImageObjectQuery w (Validated.aiClient cfg)
              (Validated.MODEL cfg) img q schema isBatch
            = MkAsync [RateLimitChecked (rateLimitOptions isBatch)]
                (Rejected (MkError "No AI client available"))
            ∧ generateOpenAiImageQuery w (Validated.aiClient cfg)
                (Validated.MODEL cfg) img q isBatch
              = MkAsync [RateLimitChecked (rateLimitOptions isBatch)]
                  (Resolved None)))
  ∧ (∀ key,
       OPENAI_BASE_URL cfg = Some url →
       present (OPENAI_SECRET_KEY cfg) = Some key →
       OpenAiTs.openai cfg = Some (createOpenAI key (Some url)))
  ∧ (∀ key,
       AI_BASE_URL cfg = Some url →
       present (AI_SECRET_KEY cfg) = Some key →
       OpenAiTs.deepseek cfg = Some (createDeepSeek key (Some url))).
Proof.
  intros Hbad. repeat apply conj.
  - intros Hurl.
    destruct (validated_without_openai_url cfg url Hurl Hbad)
      as (Hsafe & Hopenai & Hclient & Hmodel).
    repeat apply conj; [| |done|done].
    + destruct (normalizeBaseUrl_malformed url (Some Openai) Hbad) as (w & Hw & _).
      exists w. split; [done|]. unfold Validated.warnings.
      rewrite Hurl, Hw. apply elem_of_app. right. by left.
    + unfold Validated.openai. rewrite Hsafe.
      by destruct (present (OPENAI_SECRET_KEY cfg)).
  - intros Hurl.
    destruct (validated_without_deepseek_url cfg url Hurl Hbad)
      as (Hnone & Hclient & Hmodel).
    destruct (validated_selects_openai cfg) as [Hopenai Hgpt];
      [right; by rewrite Hnone|].
    repeat apply conj; [| | |done|done|done| |].
    + destruct (normalizeBaseUrl_malformed url (Some Deepseek) Hbad)
        as (w & Hw & _).
      exists w. split; [done|]. unfold Validated.warnings.
      rewrite Hurl, Hw. apply elem_of_app. left. by left.
    + unfold Validated.deepseek. rewrite Hnone.
      by destruct (present (DEEPSEEK_API_KEY cfg)).
    + apply validated_IS_DEEPSEEK_false. right. by rewrite Hnone.
    + intros key Hkey. rewrite Hopenai. unfold Validated.openai.
      by rewrite Hkey.
    + intros Hkey.
      assert (Validated.aiClient cfg = None) as Hclientless.
      { rewrite Hopenai. unfold Validated.openai. by rewrite Hkey. }
      split; [done|]. intros Schema w img q schema isBatch Hlimit.
      rewrite Hclientless.
      by rewrite object_without_client, generate_without_client.
  - intros key Hurl Hkey. unfold OpenAiTs.openai.
    rewrite Hkey, Hurl, present_of_Some; [done|apply Hbad].
  - intros key Hurl Hkey. unfold OpenAiTs.deepseek.
    rewrite Hkey, Hurl, present_of_Some; [done|apply Hbad].
Qed.

End MalformedUrls.

(** The revision with [normalizeBaseUrl] on a DeepSeek base URL without
    protocol: with an OpenAI key the OpenAI client is the active one;
    without, the structured call is turned down. *)
Lemma malformed_base_url_as_absent_witness :
  (Validated.deepseek Sample.bare_deepseek_url = None
   ∧ Validated.aiClient Sample.bare_deepseek_url
     = Some (createOpenAI "sk-openai" None))
  ∧ generateOpenAiImageObjectQuery Sample.open_world
      (Validated.aiClient Quoted.deepseek_key_and_bare_url)
      (Validated.MODEL Quoted.deepseek_key_and_bare_url)
      "AAAA" "Describe" () None
    = MkAsync [RateLimitChecked (rateLimitOptions None)]
        (Rejected (MkError "No AI client available")).
Proof.
  assert (malformed "api.deepseek.com") as Hbad.
  { split; [discriminate|]. left. reflexivity. }
  split.
  - destruct (malformed_base_url_as_absent Sample.bare_deepseek_url
                "api.deepseek.com" Hbad)
      as (_ & Hdeepseek & _).
    destruct (Hdeepseek eq_refl) as (_ & Hoff & _ & _ & _ & _ & Hopenai & _).
    split; [exact Hoff|]. exact (Hopenai "sk-openai" eq_refl).
  - destruct (malformed_base_url_as_absent Quoted.deepseek_key_and_bare_url
                "api.deepseek.com" Hbad)
      as (_ & Hdeepseek & _).
    destruct (Hdeepseek eq_refl) as (_ & _ & _ & _ & _ & _ & _ & Hnone).
    destruct (Hnone eq_refl) as (_ & Hcalls).
    apply (Hcalls unit Sample.open_world "AAAA" "Describe" () None).
    reflexivity.
Defined.

(** C6 fails as stated in two ways.  On [src/platforms/openai.ts] an
    [OPENAI_BASE_URL] without protocol is not treated as absent: it
    becomes the [baseURL] of the OpenAI client, where the configuration
    without the URL gives none.  On the revision with
    [normalizeBaseUrl] a malformed URL does make a query call fail:
    with DeepSeek's key and the base URL [api.deepseek.com] the
    structured call throws the no-client error, where the same call
    with [https://api.deepseek.com] returns the provider's object. *)
Lemma malformed_base_url_counterexample :
  (malformed "api.openai.com/v1"
   ∧ OPENAI_BASE_URL Sample.bare_openai_url = Some "api.openai.com/v1"
   ∧ OpenAiTs.aiClient Sample.bare_openai_url
     = Some (createOpenAI "sk-openai" (Some "api.openai.com/v1"))
   ∧ OpenAiTs.aiClient (without_openai_base_url Sample.bare_openai_url)
     = Some (createOpenAI "sk-openai" None)
   ∧ ¬ malformed_openai_url_as_absent OpenAiTs.aiClient)
  ∧ (malformed "api.deepseek.com"
     ∧ DEEPSEEK_BASE_URL Quoted.deepseek_key_and_bare_url
       = Some "api.deepseek.com"
     ∧ outcome (generateOpenAiImageObjectQuery Quoted.answers
                  (Validated.aiClient Quoted.deepseek_key_and_bare_url)
                  (Validated.MODEL Quoted.deepseek_key_and_bare_url)
                  "AAAA" "Describe" () None)
       = Rejected (MkError "No AI client available")
     ∧ ∃ returned,
         outcome (generateOpenAiImageObjectQuery Quoted.answers
                    (Validated.aiClient Quoted.deepseek_key_and_url)
                    (Validated.MODEL Quoted.deepseek_key_and_url)
                    "AAAA" "Describe" () None)
         = Resolved returned
         ∧ returned !! "title" = Some "Cat").
Proof.
  split.
  - assert (malformed "api.openai.com/v1") as Hbad.
    { split; [discriminate|]. left. reflexivity. }
    split; [exact Hbad|]. do 3 (split; [reflexivity|]).
    intros Habsent.
    specialize (Habsent Sample.bare_openai_url "api.openai.com/v1" eq_refl Hbad).
    discriminate Habsent.
  - split; [split; [discriminate|left; reflexivity]|].
    do 2 (split; [reflexivity|]).
    change (Validated.aiClient Quoted.deepseek_key_and_url)
      with (Some (createDeepSeek "sk-deepseek"
                    (Some "https://api.deepseek.com/v1"))).
    rewrite object_with_client by reflexivity.
    eexists. split; [reflexivity|].
    rewrite lookup_fmap.
    change (default ∅ (object _))
      with ({[ "title" := Quoted.quote +:+ "Cat" +:+ Quoted.quote ]}
            : gmap string string).
    by rewrite lookup_singleton_eq.
Qed.

(** ** Strings *)

#[local] Arguments String.append : simpl nomatch.

Lemma string_app_assoc (a b c : string) : (a +:+ b) +:+ c = a +:+ (b +:+ c).
Proof. induction a as [|x a IH]; simpl; [done|]. by rewrite IH. Qed.

Lemma endsWith_nil suf :
  endsWith suf "" = String.eqb "" suf.
Proof. unfold endsWith. by destruct (String.eqb "" suf). Qed.

Lemma endsWith_cons suf x s :
  endsWith suf (String x s)
  = if String.eqb (String x s) suf then true else endsWith suf s.
Proof. done. Qed.

Lemma endsWith_refl suf : endsWith suf suf = true.
Proof.
  destruct suf; [done|]. by rewrite endsWith_cons, String.eqb_refl.
Qed.

Lemma endsWith_app suf a : endsWith suf (a +:+ suf) = true.
Proof.
  induction a as [|x a IH]; [apply endsWith_refl|].
  change (String x a +:+ suf) with (String x (a +:+ suf)).
  rewrite endsWith_cons, IH. by destruct (String.eqb _ _).
Qed.

Lemma endsWith_inv suf s : endsWith suf s = true → ∃ a, s = a +:+ suf.
Proof.
  induction s as [|x s IH].
  - rewrite endsWith_nil. intros <-%String.eqb_eq. by exists "".
  - rewrite endsWith_cons.
    destruct (String.eqb_spec (String x s) suf) as [<-|]; [by exists ""|].
    intros [a ->]%IH. by exists (String x a).
Qed.

Lemma startsWith_app p s : startsWith p (p +:+ s) = true.
Proof.
  unfold startsWith. induction p as [|c p IH]; simpl; [by destruct s|].
  by destruct (ascii_dec c c).
Qed.

Lemma startsWith_char (c : ascii) (s : string) :
  startsWith (String c "") s = true → ∃ s', s = String c s'.
Proof.
  unfold startsWith. destruct s as [|x s]; [done|]. cbn [String.prefix].
  destruct (ascii_dec c x) as [->|]; [|done]. by exists s.
Qed.

Lemma has_protocol_nonempty s : has_protocol s = true → s ≠ "".
Proof. by intros Hs ->. Qed.

(** ** [normalizeBaseUrl] *)

Section Normalisation.
Context `{UrlLaws}.

(** The path [normalizeBaseUrl] writes for DeepSeek. *)
Lemma v1_path_ends_with_v1 (path : string) :
  endsWith "/v1"
    (if endsWith "/" path then path +:+ "v1" else path +:+ "/v1") = true.
Proof.
  destruct (endsWith "/" path) eqn:Hslash.
  - apply endsWith_inv in Hslash as [a ->].
    rewrite string_app_assoc. apply (endsWith_app "/v1").
  - apply endsWith_app.
Qed.

(** What [normalizeBaseUrl] returns for a URL that is given, has its
    protocol and parses. *)
Lemma normalizeBaseUrl_well_formed url provider parsed :
  url ≠ "" → has_protocol url = true → url_parse url = Some parsed →
  Validated.normalizeBaseUrl (Some url) provider
  = if match provider with Some Deepseek => true | _ => false end
       && negb (endsWith "/v1" (pathname parsed))
    then
      (Some (url_toString
               (set_pathname
                  (if endsWith "/" (pathname parsed)
                   then pathname parsed +:+ "v1"
                   else pathname parsed +:+ "/v1")
                  parsed)), [])
    else (Some url, []).
Proof.
  intros Hgiven Hprotocol Hparse. unfold Validated.normalizeBaseUrl.
  by rewrite present_of_Some, has_protocol_true, Hparse.
Qed.

(** The rewritten URL is well-formed again, and its path ends in
    [/v1]. *)
Lemma rewritten_url_well_formed url parsed :
  has_protocol url = true → url_parse url = Some parsed →
  let rewritten :=
    url_toString
      (set_pathname
         (if endsWith "/" (pathname parsed)
          then pathname parsed +:+ "v1"
          else pathname parsed +:+ "/v1")
         parsed) in
  rewritten ≠ ""
  ∧ has_protocol rewritten = true
  ∧ ∃ parsed', url_parse rewritten = Some parsed'
               ∧ endsWith "/v1" (pathname parsed') = true.
Proof.
  intros Hprotocol Hparse rewritten.
  assert (http_url parsed) as Hhttp by by eapply http_url_parsed.
  assert (has_protocol rewritten = true) as Hrewritten.
  { apply url_protocol. by apply http_url_set. }
  split; [by apply has_protocol_nonempty|]. split; [done|].
  destruct (url_reparse (set_pathname
              (if endsWith "/" (pathname parsed)
               then pathname parsed +:+ "v1"
               else pathname parsed +:+ "/v1") parsed))
    as (parsed' & Hparsed' & Hpath); [by apply http_url_set|].
  exists parsed'. split; [done|]. rewrite Hpath.
  apply url_set_suffix; [done|]. apply v1_path_ends_with_v1.
Qed.

(** C7.  For a well-formed DeepSeek base URL (given, with the http(s)
    protocol, and parsing), [normalizeBaseUrl] returns a URL whose path
    ends in [/v1]: the URL itself when its path already ends in [/v1],
    and otherwise the URL with [v1] (after a trailing slash) or [/v1]
    appended to the path. *)
Theorem deepseek_path_ends_with_v1 (url : string) (parsed : URL) :
  url ≠ "" → has_protocol url = true → url_parse url = Some parsed →
  ∃ normalized parsed',
    Validated.normalizeBaseUrl (Some url) (Some Deepseek)
    = (Some normalized, [])
    ∧ url_parse normalized = Some parsed'
    ∧ endsWith "/v1" (pathname parsed') = true
    ∧ normalized
      = if endsWith "/v1" (pathname parsed) then url
        else url_toString
               (set_pathname
                  (pathname parsed
                   +:+ (if endsWith "/" (pathname parsed) then "v1" else "/v1"))
                  parsed).
Proof.
  intros Hgiven Hprotocol Hparse.
  rewrite (normalizeBaseUrl_well_formed _ _ parsed) by done.
  destruct (endsWith "/v1" (pathname parsed)) eqn:Hv1; simpl.
  - by exists url, parsed.
  - destruct (rewritten_url_well_formed url parsed Hprotocol Hparse)
      as (_ & _ & parsed' & Hparsed' & Hpath).
    eexists _, parsed'. repeat split; [done..|].
    by destruct (endsWith "/" (pathname parsed)).
Qed.

(** C8.  [normalizeBaseUrl] is idempotent: for every input, absent or
    not, and every provider tag, normalising the result again gives the
    same result. *)
Theorem normalizeBaseUrl_idempotent (url : option string)
    (provider : option Provider) :
  (Validated.normalizeBaseUrl
     (Validated.normalizeBaseUrl url provider).1 provider).1
  = (Validated.normalizeBaseUrl url provider).1.
Proof.
  destruct (present url) as [given|] eqn:Hurl;
    [|unfold Validated.normalizeBaseUrl at 2 3; by rewrite Hurl].
  apply present_Some in Hurl as [-> Hgiven].
  destruct (has_protocol given) eqn:Hprotocol; cycle 1.
  { unfold Validated.normalizeBaseUrl at 2 3.
    by rewrite present_of_Some, has_protocol_false. }
  destruct (url_parse given) as [parsed|] eqn:Hparse; cycle 1.
  { unfold Validated.normalizeBaseUrl at 2 3.
    by rewrite present_of_Some, has_protocol_true, Hparse. }
  rewrite (normalizeBaseUrl_well_formed given provider parsed) by done.
  destruct (_ && negb (endsWith "/v1" (pathname parsed))) eqn:Hrewrite;
    cbn [fst].
  - destruct (rewritten_url_well_formed given parsed Hprotocol Hparse)
      as (Hnonempty & Hrewritten & parsed' & Hparsed' & Hpath).
    rewrite (normalizeBaseUrl_well_formed _ provider parsed') by done.
    by rewrite Hpath, andb_false_r.
  - rewrite (normalizeBaseUrl_well_formed given provider parsed) by done.
    by rewrite Hrewrite.
Qed.

End Normalisation.

(** ** The small URL class keeps the laws *)

Module SimpleUrlFacts.
Import SimpleUrl.

Lemma span_clean stop s :
  all_chars (λ c, negb (stop c)) (span stop s).1 = true.
Proof.
  induction s as [|c s IH]; simpl; [done|].
  destruct (stop c) eqn:Hc; simpl; [done|]. by rewrite Hc, IH.
Qed.

Lemma span_stops stop s : stops stop (span stop s).2 = true.
Proof.
  induction s as [|c s IH]; simpl; [done|].
  by destruct (stop c) eqn:Hc.
Qed.

Lemma span_app stop a b :
  all_chars (λ c, negb (stop c)) a = true → stops stop b = true →
  span stop (a +:+ b) = (a, b).
Proof.
  intros Ha Hb. induction a as [|c a IH]; simpl in *.
  - destruct b as [|c b]; simpl in *; [done|]. by rewrite Hb.
  - apply andb_true_iff in Ha as [Hc Ha].
    apply negb_true_iff in Hc. by rewrite Hc, IH.
Qed.

(** After the authority the path is empty or starts with a slash. *)
Lemma path_after_authority rest :
  stops ends_authority rest = true →
  (span ends_path rest).1 = ""
  ∨ startsWith "/" (span ends_path rest).1 = true.
Proof.
  destruct rest as [|c rest]; [by left|]. cbn [stops span].
  unfold ends_authority. destruct (ends_path c); cbn [fst]; [by left|].
  rewrite orb_false_r. intros ->%Ascii.eqb_eq. right.
  apply (startsWith_app "/").
Qed.

Lemma parse_wf s u : parse s = Some u → wf u = true.
Proof.
  unfold parse.
  destruct (if startsWith "https://" s then Some (true, drop 8 s)
            else if startsWith "http://" s then Some (false, drop 7 s)
            else None) as [[sec rest]|]; [|done].
  cbn zeta. destruct (String.eqb_spec (span ends_authority rest).1 "")
    as [|Hauthority]; [done|].
  intros [= <-]. unfold wf. cbn [authority path tail].
  set (q := span ends_path (span ends_authority rest).2).
  assert (startsWith "/" (if String.eqb q.1 "" then "/" else q.1) = true)
    as ->.
  { destruct (String.eqb_spec q.1 "") as [|Hpath]; [done|].
    by destruct (path_after_authority (span ends_authority rest).2
                   (span_stops _ _)). }
  assert (all_chars (λ c, negb (ends_path c))
            (if String.eqb q.1 "" then "/" else q.1) = true) as ->.
  { destruct (String.eqb_spec q.1 ""); [done|apply span_clean]. }
  rewrite span_clean. subst q. rewrite span_stops, !andb_true_r.
  by apply negb_true_iff, String.eqb_neq.
Qed.

Lemma encode_clean p : all_chars (λ c, negb (ends_path c)) (encode p) = true.
Proof.
  induction p as [|c p IH]; [done|]. cbn [encode].
  destruct (Ascii.eqb c "?") eqn:Hq; [exact IH|].
  destruct (Ascii.eqb c "#") eqn:Hh; [exact IH|].
  cbn [String.append all_chars]. unfold ends_path at 1. by rewrite Hq, Hh.
Qed.

Lemma set_path_wf p u : wf u = true → wf (set_path p u) = true.
Proof.
  unfold wf, set_path. cbn [authority path tail].
  intros (((( -> & -> )%andb_true_iff & _)%andb_true_iff
            & _)%andb_true_iff & ->)%andb_true_iff.
  rewrite andb_true_r. cbn [negb andb].
  destruct (startsWith "/" (encode p)) eqn:Hslash.
  - by rewrite Hslash, encode_clean.
  - rewrite (startsWith_app "/"). exact (encode_clean p).
Qed.

Lemma http_url_wf u : http_url u → wf u = true.
Proof.
  induction 1 as [s u _ Hparse|p u _ IH].
  - by apply parse_wf in Hparse.
  - by apply set_path_wf.
Qed.

Lemma toString_parse u : wf u = true → parse (toString u) = Some u.
Proof.
  destruct u as [sec auth p tl]. unfold wf, toString.
  cbn [secure authority path tail].
  intros ((((Hgiven & Hauthority)%andb_true_iff & Hslash)%andb_true_iff
            & Hpath)%andb_true_iff & Htail)%andb_true_iff.
  apply negb_true_iff in Hgiven.
  apply startsWith_char in Hslash as [p' ->]. rename p' into p.
  assert (span ends_authority (auth +:+ String "/" p +:+ tl)
          = (auth, String "/" p +:+ tl)) as Hspan_authority
    by by apply span_app.
  assert (span ends_path (String "/" p +:+ tl) = (String "/" p, tl))
    as Hspan_path by by apply span_app.
  unfold parse. destruct sec.
  - rewrite (startsWith_app "https://").
    change (drop 8 ("https://" +:+ auth +:+ String "/" p +:+ tl))
      with (auth +:+ String "/" p +:+ tl).
    cbn zeta. rewrite Hspan_authority. cbn [fst snd].
    by rewrite Hgiven, Hspan_path.
  - change (startsWith "https://" ("http://" +:+ auth +:+ String "/" p +:+ tl))
      with false.
    rewrite (startsWith_app "http://").
    change (drop 7 ("http://" +:+ auth +:+ String "/" p +:+ tl))
      with (auth +:+ String "/" p +:+ tl).
    cbn zeta. rewrite Hspan_authority. cbn [fst snd].
    by rewrite Hgiven, Hspan_path.
Qed.

Lemma encode_app a b : encode (a +:+ b) = encode a +:+ encode b.
Proof.
  induction a as [|c a IH]; simpl; [done|].
  by rewrite IH, string_app_assoc.
Qed.

Lemma set_path_suffix p u :
  endsWith "/v1" p = true → endsWith "/v1" (path (set_path p u)) = true.
Proof.
  intros [a ->]%endsWith_inv. unfold set_path. cbn [path].
  rewrite encode_app.
  change (encode "/v1") with "/v1".
  destruct (startsWith "/" (encode a +:+ "/v1")).
  - apply endsWith_app.
  - rewrite <- string_app_assoc. apply endsWith_app.
Qed.

Lemma laws : UrlLaws.
Proof.
  split.
  - intros u Hu%http_url_wf. exists u. split; [|done].
    by apply toString_parse.
  - intros [sec auth p tl] _.
    change (has_protocol (toString (Mk sec auth p tl)) = true).
    unfold has_protocol, toString. cbn [secure authority path tail].
    destruct sec.
    + rewrite (startsWith_app "https://"). apply orb_true_r.
    + by rewrite (startsWith_app "http://").
  - intros p u _. apply set_path_suffix.
Qed.

End SimpleUrlFacts.

(** ** Runs *)

(** A trailing slash takes [v1], anything else takes [/v1], and what
    follows the path stays. *)
Example normalizeBaseUrl_trailing_slash :
  Validated.normalizeBaseUrl (Some "https://api.deepseek.com/v1/")
    (Some Deepseek)
  = (Some "https://api.deepseek.com/v1/v1", []).
Proof. reflexivity. Qed.

Example normalizeBaseUrl_keeps_query :
  Validated.normalizeBaseUrl (Some "http://localhost:8080/api?key=1")
    (Some Deepseek)
  = (Some "http://localhost:8080/api/v1?key=1", []).
Proof. reflexivity. Qed.

(** The path of an OpenAI URL is left alone. *)
Example normalizeBaseUrl_openai_unchanged :
  Validated.normalizeBaseUrl (Some "https://api.openai.com") (Some Openai)
  = (Some "https://api.openai.com", []).
Proof. reflexivity. Qed.

Example normalizeBaseUrl_missing_protocol :
  Validated.normalizeBaseUrl (Some "api.deepseek.com") (Some Deepseek)
  = (None,
     [MkWarning
        "Invalid deepseek base URL (missing protocol): api.deepseek.com"
        false]).
Proof. reflexivity. Qed.

Example normalizeBaseUrl_parse_error :
  Validated.normalizeBaseUrl (Some "https://") (Some Openai)
  = (None,
     [MkWarning "Invalid openai base URL (parse error): https://" true]).
Proof. reflexivity. Qed.

(** In [src/platforms/openai.ts] the selection looks at
    [DEEPSEEK_API_KEY] and the client is built from [AI_SECRET_KEY]:
    with the first set and the second missing there is no client, also
    when the OpenAI key is set. *)
Example openai_ts_deepseek_without_ai_key :
  OpenAiTs.aiClient
    (MkConfig None (Some "sk-openai") (Some "sk-deepseek")
       (Some "https://api.deepseek.com") None None)
  = None.
Proof. reflexivity. Qed.

(** [normalizeBaseUrl] run on DeepSeek's base URL. *)
Lemma deepseek_path_ends_with_v1_witness :
  ∃ normalized parsed',
    Validated.normalizeBaseUrl (Some "https://api.deepseek.com") (Some Deepseek)
    = (Some normalized, [])
    ∧ url_parse normalized = Some parsed'
    ∧ endsWith "/v1" (pathname parsed') = true
    ∧ normalized = "https://api.deepseek.com/v1".
Proof.
  apply (deepseek_path_ends_with_v1 (H0 := SimpleUrlFacts.laws)
           "https://api.deepseek.com"
           (SimpleUrl.Mk true "api.deepseek.com" "/" ""));
    [discriminate|reflexivity|reflexivity].
Defined.

Lemma normalizeBaseUrl_idempotent_witness :
  (Validated.normalizeBaseUrl
     (Validated.normalizeBaseUrl (Some "https://api.deepseek.com/")
        (Some Deepseek)).1 (Some Deepseek)).1
  = (Validated.normalizeBaseUrl (Some "https://api.deepseek.com/")
       (Some Deepseek)).1.
Proof.
  apply (normalizeBaseUrl_idempotent (H0 := SimpleUrlFacts.laws)).
Defined.

(** * Further properties *)

(** ** The query operations *)

Section MoreQueryFacts.
Context {Schema : Type} (w : Collaborators Schema).
Context (aiClient : option Client) (MODEL : string).

(** The updates of a detached body are neither requests nor calls of
    [stream.done()]. *)
Lemma filter_updates (keep : Event Schema → bool) (f : string → string)
    (ds : list string) :
  (∀ v, keep (StreamUpdated v) = false) →
  List.filter keep ((λ d, StreamUpdated (f d)) <$> ds) = [].
Proof.
  intros Hkeep. induction ds as [|d ds IH]; [done|].
  rewrite fmap_cons. cbn [List.filter]. by rewrite Hkeep.
Qed.

(** The streaming path's trace with the detached body spliced in. *)
Lemma stream_flat client img q :
  rateLimit w (rateLimitOptions None) = None →
  flatten (trace (streamOpenAiImageQuery w (Some client) MODEL img q))
  = (RateLimitChecked (rateLimitOptions None)
     :: StreamableCreated ""
     :: StreamTextCalled (image_request w MODEL client img q)
     :: ((λ d, StreamUpdated (cleanUpAiTextResponse w d))
           <$> deltas (streamText w (image_request w MODEL client img q)))
     ++ match failure (streamText w (image_request w MODEL client img q)) with
        | None => [StreamDone]
        | Some _ => []
        end)%list.
Proof.
  intros Hlimit. rewrite stream_with_client by done.
  unfold flatten. cbn [trace]. rewrite !bind_cons.
  cbn [mbind list_bind app]. by rewrite app_nil_r.
Qed.

Lemma stream_requests client img q :
  rateLimit w (rateLimitOptions None) = None →
  provider_requests (trace (streamOpenAiImageQuery w (Some client) MODEL img q))
  = [StreamTextCalled (image_request w MODEL client img q)].
Proof.
  intros Hlimit. unfold provider_requests. rewrite stream_flat by done.
  cbn [List.filter is_provider_request]. f_equal.
  rewrite List.filter_app, filter_updates by done.
  by destruct (failure _).
Qed.

(** X1.  With a provider configured and the limiter's consent, the
    one-shot path never returns nothing: it resolves to the provider's
    text passed through [cleanUpAiTextResponse], and when the provider
    call rejects, it rejects with the same error. *)
Theorem one_shot_cleans_or_rethrows client img q isBatch :
  rateLimit w (rateLimitOptions isBatch) = None →
  let run := generateOpenAiImageQuery w (Some client) MODEL img q isBatch in
  outcome run ≠ Resolved None
  ∧ (∀ result,
       generateText w (image_request w MODEL client img q) = Resolved result →
       outcome run = Resolved (Some (cleanUpAiTextResponse w (text result))))
  ∧ (∀ e,
       generateText w (image_request w MODEL client img q) = Rejected e →
       outcome run = Rejected e).
Proof.
  intros Hlimit run. subst run. rewrite generate_with_client by done.
  cbn [outcome]. repeat split.
  - by destruct (generateText w _).
  - by intros result ->.
  - by intros e ->.
Qed.

(** X2.  When the text stream ends normally, [stream.done()] is called
    exactly once, after every update, and nothing is left unhandled. *)
Theorem stream_closed_once client img q :
  rateLimit w (rateLimitOptions None) = None →
  failure (streamText w (image_request w MODEL client img q)) = None →
  let run := streamOpenAiImageQuery w (Some client) MODEL img q in
  done_calls (trace run) = 1
  ∧ last (flatten (trace run)) = Some StreamDone
  ∧ unhandled_rejections (trace run) = [].
Proof.
  intros Hlimit Hends run. subst run. repeat split.
  - unfold done_calls. rewrite stream_flat by done. rewrite Hends.
    cbn [List.filter is_stream_done].
    by rewrite List.filter_app, filter_updates.
  - rewrite stream_flat by done. rewrite Hends.
    rewrite !app_comm_cons. apply last_snoc.
  - rewrite stream_with_client by done. cbn zeta. by rewrite Hends.
Qed.

(** X3.  When the text stream fails, the caller is not told: the
    operation still resolves to the streamable, the fragments that
    arrived before the failure have been pushed, but [stream.done()] is
    never called and the error stays an unhandled rejection. *)
Theorem stream_failure_is_silent client img q e :
  rateLimit w (rateLimitOptions None) = None →
  failure (streamText w (image_request w MODEL client img q)) = Some e →
  let run := streamOpenAiImageQuery w (Some client) MODEL img q in
  outcome run = Resolved (MkStreamable "")
  ∧ stream_updates (trace run)
    = cleanUpAiTextResponse w
        <$> deltas (streamText w (image_request w MODEL client img q))
  ∧ done_calls (trace run) = 0
  ∧ unhandled_rejections (trace run) = [e].
Proof.
  intros Hlimit Hfails run. subst run. repeat split.
  - by rewrite stream_with_client.
  - unfold stream_updates. rewrite stream_flat by done. rewrite Hfails.
    rewrite app_nil_r, !bind_cons. cbn [app].
    apply stream_updates_of_updates.
  - unfold done_calls. rewrite stream_flat by done. rewrite Hfails.
    cbn [List.filter is_stream_done].
    by rewrite app_nil_r, filter_updates.
  - rewrite stream_with_client by done. cbn zeta. by rewrite Hfails.
Qed.

(** X4.  With a provider configured and the limiter's consent, the
    structured path returns an object with exactly the keys of the
    provider's object (cleaning adds and drops no key), and when the
    provider call rejects, it rejects with the same error. *)
Theorem object_keeps_keys_or_rethrows client img q schema isBatch :
  rateLimit w (rateLimitOptions isBatch) = None →
  let run :=
    generateOpenAiImageObjectQuery w (Some client) MODEL img q schema isBatch in
  (∀ result,
     generateObject w (object_request w MODEL client img q schema)
     = Resolved result →
     ∃ returned,
       outcome run = Resolved returned
       ∧ dom returned = dom (default ∅ (object result))
       ∧ size returned = size (default ∅ (object result)))
  ∧ (∀ e,
       generateObject w (object_request w MODEL client img q schema)
       = Rejected e →
       outcome run = Rejected e).
Proof.
  intros Hlimit run. subst run. rewrite object_with_client by done.
  cbn [outcome]. split.
  - intros result ->. eexists. split; [done|].
    by rewrite dom_fmap_L, map_size_fmap.
  - by intros e ->.
Qed.

(** The request [testOpenAiConnection] sends. *)
Lemma test_request_sent client :
  rateLimit w (rateLimitOptions None) = None →
  testOpenAiConnection w (Some client) MODEL
  = let args :=
      MkTextArgs (MkModel client MODEL)
        [MkMessage "user" [TextPart "Test connection"]] in
    MkAsync [RateLimitChecked (rateLimitOptions None); GenerateTextCalled args]
      (match generateText w args with
       | Resolved result => Resolved (Some result)
       | Rejected e => Rejected e
       end).
Proof. intros Hlimit. by rewrite test_passed. Qed.

(** X5.  [testOpenAiConnection] asks the limiter first and stops when
    it throws; without a provider it resolves to [undefined] and sends
    nothing; with one it sends exactly one request, a single user
    message whose only content is the text [Test connection] (no image
    segment), and hands back the provider's result as it is, text not
    cleaned, or the provider's error. *)
Theorem test_connection_behaviour :
  (∀ e, rateLimit w (rateLimitOptions None) = Some e →
     outcome (testOpenAiConnection w aiClient MODEL) = Rejected e
     ∧ provider_requests (trace (testOpenAiConnection w aiClient MODEL)) = [])
  ∧ (rateLimit w (rateLimitOptions None) = None →
     outcome (testOpenAiConnection w None MODEL) = Resolved None
     ∧ provider_requests (trace (testOpenAiConnection w None MODEL)) = [])
  ∧ (∀ client, rateLimit w (rateLimitOptions None) = None →
     let args :=
       MkTextArgs (MkModel client MODEL)
         [MkMessage "user" [TextPart "Test connection"]] in
     provider_requests (trace (testOpenAiConnection w (Some client) MODEL))
     = [GenerateTextCalled args]
     ∧ outcome (testOpenAiConnection w (Some client) MODEL)
       = match generateText w args with
         | Resolved result => Resolved (Some result)
         | Rejected e => Rejected e
         end).
Proof.
  split; [|split].
  - intros e Hlimit. by rewrite (test_limited _ _ _ e).
  - intros Hlimit. by rewrite test_passed.
  - intros client Hlimit args. by rewrite test_request_sent.
Qed.

(** X6.  A call sends at most one request to a provider: exactly one
    when the limiter lets it through and a provider is configured, and
    none otherwise.  This holds for all four operations, whatever the
    provider answers. *)
Theorem one_request_per_call img q schema isBatch :
  let sent (b : option bool) : nat :=
    match rateLimit w (rateLimitOptions b), aiClient with
    | None, Some _ => 1
    | _, _ => 0
    end in
  length (provider_requests
            (trace (streamOpenAiImageQuery w aiClient MODEL img q)))
  = sent None
  ∧ length (provider_requests
              (trace (generateOpenAiImageQuery w aiClient MODEL img q isBatch)))
    = sent isBatch
  ∧ length (provider_requests
              (trace (generateOpenAiImageObjectQuery w aiClient MODEL img q
                        schema isBatch)))
    = sent isBatch
  ∧ length (provider_requests (trace (testOpenAiConnection w aiClient MODEL)))
    = sent None.
Proof.
  intros sent. subst sent. cbn beta. repeat split.
  - destruct (rateLimit w (rateLimitOptions None)) as [e|] eqn:Hlimit.
    { by rewrite (stream_limited _ _ _ _ _ e). }
    destruct aiClient as [client|].
    + by rewrite stream_requests.
    + by rewrite stream_without_client.
  - destruct (rateLimit w (rateLimitOptions isBatch)) as [e|] eqn:Hlimit.
    { by rewrite (generate_limited _ _ _ _ _ _ e). }
    destruct aiClient as [client|].
    + by rewrite generate_with_client.
    + by rewrite generate_without_client.
  - destruct (rateLimit w (rateLimitOptions isBatch)) as [e|] eqn:Hlimit.
    { by rewrite (object_limited _ _ _ _ _ _ _ e). }
    destruct aiClient as [client|].
    + by rewrite object_with_client.
    + by rewrite object_without_client.
  - destruct (rateLimit w (rateLimitOptions None)) as [e|] eqn:Hlimit.
    { by rewrite (test_limited _ _ _ e). }
    rewrite test_passed by done. by destruct aiClient.
Qed.

End MoreQueryFacts.

(** The operations run on failing collaborators. *)

Lemma one_shot_cleans_or_rethrows_witness :
  outcome (generateOpenAiImageQuery Sample.open_world
             (Some Sample.openai_client) OPENAI_MODEL "AAAA" "Describe" None)
  = Resolved (Some "A cat")
  ∧ outcome (generateOpenAiImageQuery Faulty.broken_stream
               (Some Sample.openai_client) OPENAI_MODEL "AAAA" "Describe" None)
    = Rejected (MkError "provider down").
Proof.
  split.
  - pose proof (one_shot_cleans_or_rethrows Sample.open_world OPENAI_MODEL
                  Sample.openai_client "AAAA" "Describe" None eq_refl)
      as (_ & Hcleaned & _).
    apply (Hcleaned (MkTextResult "A cat")). reflexivity.
  - pose proof (one_shot_cleans_or_rethrows Faulty.broken_stream OPENAI_MODEL
                  Sample.openai_client "AAAA" "Describe" None eq_refl)
      as (_ & _ & Hrethrown).
    apply Hrethrown. reflexivity.
Defined.

Lemma stream_closed_once_witness :
  done_calls
    (trace (streamOpenAiImageQuery Sample.open_world
              (Some Sample.openai_client) OPENAI_MODEL "AAAA" "Describe"))
  = 1.
Proof.
  pose proof (stream_closed_once Sample.open_world OPENAI_MODEL
                Sample.openai_client "AAAA" "Describe" eq_refl eq_refl)
    as (Honce & _).
  exact Honce.
Defined.

Lemma stream_failure_is_silent_witness :
  outcome (streamOpenAiImageQuery Faulty.broken_stream
             (Some Sample.openai_client) OPENAI_MODEL "AAAA" "Describe")
  = Resolved (MkStreamable "")
  ∧ unhandled_rejections
      (trace (streamOpenAiImageQuery Faulty.broken_stream
                (Some Sample.openai_client) OPENAI_MODEL "AAAA" "Describe"))
    = [MkError "reset"].
Proof.
  pose proof (stream_failure_is_silent Faulty.broken_stream OPENAI_MODEL
                Sample.openai_client "AAAA" "Describe" (MkError "reset")
                eq_refl eq_refl) as (Hresolved & _ & _ & Hunhandled).
  split; [exact Hresolved|exact Hunhandled].
Defined.

Lemma object_keeps_keys_or_rethrows_witness :
  outcome (generateOpenAiImageObjectQuery Faulty.broken_stream
             (Some Sample.openai_client) OPENAI_MODEL "AAAA" "Describe" () None)
  = Rejected (MkError "provider down").
Proof.
  pose proof (object_keeps_keys_or_rethrows Faulty.broken_stream OPENAI_MODEL
                Sample.openai_client "AAAA" "Describe" () None eq_refl)
    as (_ & Hrethrown).
  apply Hrethrown. reflexivity.
Defined.

Lemma test_connection_behaviour_witness :
  outcome (testOpenAiConnection Sample.limited_world
             (Some Sample.openai_client) OPENAI_MODEL)
  = Rejected (MkError "Too many requests")
  ∧ outcome (testOpenAiConnection Sample.open_world None OPENAI_MODEL)
    = Resolved None
  ∧ provider_requests
      (trace (testOpenAiConnection Sample.open_world
                (Some Sample.openai_client) OPENAI_MODEL))
    = [GenerateTextCalled
         (MkTextArgs (MkModel Sample.openai_client OPENAI_MODEL)
            [MkMessage "user" [TextPart "Test connection"]])].
Proof.
  split; [|split].
  - pose proof (test_connection_behaviour Sample.limited_world
                  (Some Sample.openai_client) OPENAI_MODEL) as (Hlimited & _).
    apply (Hlimited (MkError "Too many requests")). reflexivity.
  - pose proof (test_connection_behaviour Sample.open_world None OPENAI_MODEL)
      as (_ & Hnone & _).
    apply Hnone. reflexivity.
  - pose proof (test_connection_behaviour Sample.open_world None OPENAI_MODEL)
      as (_ & _ & Hsent).
    apply (Hsent Sample.openai_client). reflexivity.
Defined.

(** ** The module-level constants *)

Lemma truthy_of_env_is_Some v :
  truthy (of_env v) = true ↔ is_Some (present v).
Proof.
  destruct (present v) as [s|] eqn:Hv.
  - rewrite (truthy_of_env_present _ _ Hv). by split.
  - rewrite (truthy_of_env_absent _ Hv). split; [done|]. by intros [? ?].
Qed.

Section MoreSelection.
Context `{UrlApi}.

(** X7.  The model name always goes with the provider of the active
    client, in both revisions: [deepseek-chat] with the DeepSeek
    client, [gpt-5.1] with the OpenAI client. *)
Theorem model_matches_provider (cfg : Config) (c : Client) :
  (Validated.aiClient cfg = Some c →
   Validated.MODEL cfg = model_of (provider c))
  ∧ (OpenAiTs.aiClient cfg = Some c →
     OpenAiTs.MODEL cfg = model_of (provider c)).
Proof.
  split.
  - unfold Validated.aiClient, Validated.MODEL, Validated.deepseek,
      Validated.openai.
    destruct (truthy (Validated.IS_DEEPSEEK cfg)).
    + destruct (present (DEEPSEEK_API_KEY cfg)); [|done].
      destruct (present (Validated.normalizedDeepseekBaseUrl cfg)); [|done].
      by intros [= <-].
    + destruct (present (OPENAI_SECRET_KEY cfg)); [|done]. by intros [= <-].
  - unfold OpenAiTs.aiClient, OpenAiTs.MODEL, OpenAiTs.deepseek,
      OpenAiTs.openai.
    destruct (truthy (OpenAiTs.IS_DEEPSEEK cfg)).
    + destruct (present (AI_SECRET_KEY cfg)); [|done]. by intros [= <-].
    + destruct (present (OPENAI_SECRET_KEY cfg)); [|done]. by intros [= <-].
Qed.

(** In the revision with [normalizeBaseUrl] the flag and the DeepSeek
    client go together. *)
Lemma validated_flag_iff_client cfg :
  truthy (Validated.IS_DEEPSEEK cfg) = true ↔ is_Some (Validated.deepseek cfg).
Proof.
  unfold Validated.IS_DEEPSEEK, Validated.deepseek, js_and.
  destruct (present (DEEPSEEK_API_KEY cfg)) as [key|] eqn:Hkey.
  - rewrite (truthy_of_env_present _ _ Hkey). cbn [truthy].
    rewrite truthy_of_env_is_Some.
    destruct (present (Validated.normalizedDeepseekBaseUrl cfg)); split;
      intros [? ?]; try done; by eexists.
  - rewrite (truthy_of_env_absent _ Hkey), (truthy_of_env_absent _ Hkey).
    split; [done|]. by intros [? ?].
Qed.

(** X8.  In the revision with [normalizeBaseUrl] a provider that could
    be used is never left aside: [IS_DEEPSEEK] is truthy exactly when
    the DeepSeek client exists, and there is no active client only when
    neither client could be created. *)
Theorem validated_client_available (cfg : Config) :
  (truthy (Validated.IS_DEEPSEEK cfg) = true
   ↔ is_Some (Validated.deepseek cfg))
  ∧ (Validated.aiClient cfg = None
     ↔ Validated.openai cfg = None ∧ Validated.deepseek cfg = None).
Proof.
  split; [apply validated_flag_iff_client|].
  unfold Validated.aiClient.
  destruct (truthy (Validated.IS_DEEPSEEK cfg)) eqn:Hflag.
  - apply validated_flag_iff_client in Hflag as [c Hc]. rewrite Hc.
    split; [done|]. by intros [_ ?].
  - destruct (Validated.deepseek cfg) as [c|] eqn:Hc.
    + assert (truthy (Validated.IS_DEEPSEEK cfg) = true) as Hon.
      { apply validated_flag_iff_client. by rewrite Hc. }
      by rewrite Hon in Hflag.
    + split; [done|]. by intros [? _].
Qed.

(** X15.  The exported [IS_DEEPSEEK] never carries a key: when it is a
    string at all, it is the empty string (an empty [DEEPSEEK_API_KEY]);
    in both revisions. *)
Theorem IS_DEEPSEEK_hides_key (cfg : Config) (s : string) :
  (Validated.IS_DEEPSEEK cfg = JsString s → s = "")
  ∧ (OpenAiTs.IS_DEEPSEEK cfg = JsString s → s = "").
Proof.
  split.
  - unfold Validated.IS_DEEPSEEK, js_and.
    destruct (truthy (of_env (DEEPSEEK_API_KEY cfg))) eqn:Hkey; [done|].
    intros Hs. rewrite Hs in Hkey. cbn [truthy] in Hkey.
    by apply negb_false_iff, String.eqb_eq in Hkey.
  - unfold OpenAiTs.IS_DEEPSEEK, js_and, js_or.
    destruct (truthy (of_env (DEEPSEEK_API_KEY cfg))) eqn:Hkey.
    + by destruct (DEEPSEEK_BASE_URL cfg), (OPENAI_BASE_URL cfg);
        cbn [includes_deepseek truthy]; repeat case_match.
    + intros Hs. rewrite Hs in Hkey. cbn [truthy] in Hkey.
      by apply negb_false_iff, String.eqb_eq in Hkey.
Qed.

End MoreSelection.

Lemma model_matches_provider_witness :
  Validated.MODEL Sample.deepseek_only = DEEPSEEK_MODEL
  ∧ OpenAiTs.MODEL Sample.openai_only = OPENAI_MODEL.
Proof.
  split.
  - pose proof (model_matches_provider Sample.deepseek_only
                  (createDeepSeek "sk-deepseek"
                     (Some "https://api.deepseek.com/v1")))
      as (Hvalidated & _).
    exact (Hvalidated eq_refl).
  - pose proof (model_matches_provider Sample.openai_only
                  (createOpenAI "sk-openai" None)) as (_ & Hopenai).
    exact (Hopenai eq_refl).
Defined.

Lemma validated_client_available_witness :
  Validated.aiClient Sample.no_config = None
  ∧ truthy (Validated.IS_DEEPSEEK Sample.deepseek_only) = true.
Proof.
  split.
  - pose proof (validated_client_available Sample.no_config)
      as (_ & Hnone).
    apply Hnone. split; reflexivity.
  - pose proof (validated_client_available Sample.deepseek_only)
      as (Hflag & _).
    apply Hflag. eexists. reflexivity.
Defined.

Lemma IS_DEEPSEEK_hides_key_witness :
  Validated.IS_DEEPSEEK
    (MkConfig None None (Some "") (Some "https://api.deepseek.com") None None)
  = JsString ""
  ∧ "" = "".
Proof.
  split; [reflexivity|].
  pose proof (IS_DEEPSEEK_hides_key
                (MkConfig None None (Some "")
                   (Some "https://api.deepseek.com") None None) "")
    as (Hvalidated & _).
  exact (Hvalidated eq_refl).
Defined.

(** ** More on [normalizeBaseUrl] *)

Section MoreNormalisation.
Context `{UrlApi}.

(** When [normalizeBaseUrl] returns a URL, the input was given, had its
    protocol and parsed, and nothing was printed. *)
Lemma normalizeBaseUrl_Some url provider r :
  (Validated.normalizeBaseUrl url provider).1 = Some r →
  (Validated.normalizeBaseUrl url provider).2 = []
  ∧ ∃ given parsed,
      url = Some given ∧ given ≠ "" ∧ has_protocol given = true
      ∧ url_parse given = Some parsed
      ∧ r = if rewrites provider parsed then rewritten parsed else given.
Proof.
  destruct (present url) as [given|] eqn:Hurl;
    [|unfold Validated.normalizeBaseUrl; by rewrite Hurl].
  apply present_Some in Hurl as [-> Hgiven].
  destruct (has_protocol given) eqn:Hprotocol; cycle 1.
  { unfold Validated.normalizeBaseUrl.
    by rewrite present_of_Some, has_protocol_false. }
  destruct (url_parse given) as [parsed|] eqn:Hparse; cycle 1.
  { unfold Validated.normalizeBaseUrl.
    by rewrite present_of_Some, has_protocol_true, Hparse. }
  rewrite (normalizeBaseUrl_well_formed given provider parsed) by done.
  fold (rewrites provider parsed). fold (rewritten parsed).
  intros Hr. split; [by destruct (rewrites provider parsed)|].
  exists given, parsed. repeat split; try done.
  destruct (rewrites provider parsed); by injection Hr.
Qed.

(** X11.  [normalizeBaseUrl] prints exactly one warning when a
    non-empty URL is turned down, and none otherwise: none for an
    absent or empty URL, and none when it returns a URL. *)
Theorem warns_iff_rejected (url : option string) (provider : option Provider) :
  length (Validated.normalizeBaseUrl url provider).2
  = match present url, (Validated.normalizeBaseUrl url provider).1 with
    | Some _, None => 1
    | _, _ => 0
    end.
Proof.
  destruct (present url) as [given|] eqn:Hurl;
    [|unfold Validated.normalizeBaseUrl; by rewrite Hurl].
  destruct (Validated.normalizeBaseUrl url provider).1 as [r|] eqn:Hr.
  { by destruct (normalizeBaseUrl_Some url provider r Hr) as [-> _]. }
  revert Hr. unfold Validated.normalizeBaseUrl. rewrite Hurl.
  destruct (negb (startsWith "http://" given)
            && negb (startsWith "https://" given)); [done|].
  destruct (url_parse given) as [parsed|]; [|done].
  by destruct (_ && negb (endsWith "/v1" (pathname parsed))).
Qed.

(** X12.  Only DeepSeek URLs are ever rewritten: for the [openai] tag,
    or without a tag, a URL that is returned is the input itself. *)
Theorem other_providers_unchanged (url : option string)
    (provider : option Provider) (r : string) :
  provider ≠ Some Deepseek →
  (Validated.normalizeBaseUrl url provider).1 = Some r →
  url = Some r.
Proof.
  intros Hprovider Hr.
  destruct (normalizeBaseUrl_Some url provider r Hr)
    as (_ & given & parsed & -> & _ & _ & _ & ->).
  unfold rewrites. by destruct provider as [[]|].
Qed.

(** X9.  In the revision with [normalizeBaseUrl] the OpenAI client is
    built from [OPENAI_SECRET_KEY], and a [baseURL] it is given is
    [OPENAI_BASE_URL] itself, which then has its protocol, parses and
    does not contain [deepseek]. *)
Theorem validated_openai_client (cfg : Config) (c : Client) :
  Validated.openai cfg = Some c →
  provider c = Openai
  ∧ present (OPENAI_SECRET_KEY cfg) = Some (apiKey c)
  ∧ ∀ url, baseURL c = Some url →
      OPENAI_BASE_URL cfg = Some url
      ∧ has_protocol url = true
      ∧ is_Some (url_parse url)
      ∧ includes "deepseek" url = false.
Proof.
  unfold Validated.openai.
  destruct (present (OPENAI_SECRET_KEY cfg)) as [key|]; [|done].
  intros [= <-]. split; [done|]. split; [done|].
  cbn [baseURL createOpenAI]. intros url [Hsafe _]%present_Some.
  unfold Validated.safeOpenaiBaseUrl in Hsafe.
  destruct (present (Validated.normalizedOpenaiBaseUrl cfg)) as [u|] eqn:Hu;
    [|done].
  destruct (includes "deepseek" u) eqn:Hincludes; [done|].
  cbn [negb] in Hsafe. injection Hsafe as ->.
  apply present_Some in Hu as [Hu _].
  destruct (normalizeBaseUrl_Some _ _ _ Hu)
    as (_ & given & parsed & Hgiven & _ & Hprotocol & Hparse & ->).
  cbn [rewrites andb] in *. by rewrite Hgiven, Hparse.
Qed.

End MoreNormalisation.

Section MoreNormalisationLaws.
Context `{UrlLaws}.

(** X13.  Whatever [normalizeBaseUrl] returns is well-formed: not
    empty, with the http(s) protocol, and parsing. *)
Theorem normalized_url_well_formed (url : option string)
    (provider : option Provider) (r : string) :
  (Validated.normalizeBaseUrl url provider).1 = Some r →
  r ≠ "" ∧ has_protocol r = true ∧ is_Some (url_parse r).
Proof.
  intros Hr.
  destruct (normalizeBaseUrl_Some url provider r Hr)
    as (_ & given & parsed & _ & Hgiven & Hprotocol & Hparse & ->).
  destruct (rewrites provider parsed).
  - destruct (rewritten_url_well_formed given parsed Hprotocol Hparse)
      as (? & ? & parsed' & ? & _).
    by repeat split.
  - by repeat split.
Qed.

(** A normalised URL is taken as it is, without a warning. *)
Lemma normalizeBaseUrl_settled url provider :
  Validated.normalizeBaseUrl (Validated.normalizeBaseUrl url provider).1 provider
  = ((Validated.normalizeBaseUrl url provider).1, []).
Proof.
  destruct (Validated.normalizeBaseUrl url provider).1 as [r|] eqn:Hr; [|done].
  destruct (normalizeBaseUrl_Some url provider r Hr)
    as (_ & given & parsed & _ & Hgiven & Hprotocol & Hparse & ->).
  destruct (rewrites provider parsed) eqn:Hrewrites.
  - destruct (rewritten_url_well_formed given parsed Hprotocol Hparse)
      as (Hnonempty & Hrewritten & parsed' & Hparsed' & Hpath).
    rewrite (normalizeBaseUrl_well_formed _ provider parsed') by done.
    by rewrite Hpath, andb_false_r.
  - rewrite (normalizeBaseUrl_well_formed given provider parsed) by done.
    fold (rewrites provider parsed). by rewrite Hrewrites.
Qed.

(** X10.  In the revision with [normalizeBaseUrl] the DeepSeek client,
    when there is one, is built from [DEEPSEEK_API_KEY] and always has
    a [baseURL]: a well-formed URL whose path ends in [/v1]. *)
Theorem validated_deepseek_client (cfg : Config) (c : Client) :
  Validated.deepseek cfg = Some c →
  provider c = Deepseek
  ∧ present (DEEPSEEK_API_KEY cfg) = Some (apiKey c)
  ∧ ∃ url parsed,
      baseURL c = Some url
      ∧ has_protocol url = true
      ∧ url_parse url = Some parsed
      ∧ endsWith "/v1" (pathname parsed) = true.
Proof.
  unfold Validated.deepseek.
  destruct (present (DEEPSEEK_API_KEY cfg)) as [key|]; [|done].
  destruct (present (Validated.normalizedDeepseekBaseUrl cfg)) as [url|] eqn:Hurl;
    [|done].
  intros [= <-]. split; [done|]. split; [done|].
  apply present_Some in Hurl as [Hurl _].
  destruct (normalizeBaseUrl_Some _ _ _ Hurl)
    as (_ & given & parsed & _ & Hgiven & Hprotocol & Hparse & ->).
  unfold rewrites. cbn [andb].
  destruct (endsWith "/v1" (pathname parsed)) eqn:Hv1; cbn [negb].
  - by exists given, parsed.
  - destruct (rewritten_url_well_formed given parsed Hprotocol Hparse)
      as (_ & ? & parsed' & ? & ?).
    by exists (rewritten parsed), parsed'.
Qed.

(** X14.  Writing the normalised base URLs back into the configuration
    changes nothing: the flag, the clients and the model are the same,
    and loading the module prints no warning. *)
Theorem normalised_configuration_stable (cfg : Config) :
  let cfg' :=
    with_base_urls (Validated.normalizedOpenaiBaseUrl cfg)
      (Validated.normalizedDeepseekBaseUrl cfg) cfg in
  Validated.warnings cfg' = []
  ∧ Validated.IS_DEEPSEEK cfg' = Validated.IS_DEEPSEEK cfg
  ∧ Validated.openai cfg' = Validated.openai cfg
  ∧ Validated.deepseek cfg' = Validated.deepseek cfg
  ∧ Validated.aiClient cfg' = Validated.aiClient cfg
  ∧ Validated.MODEL cfg' = Validated.MODEL cfg.
Proof.
  intros cfg'.
  assert (Validated.normalizedDeepseekBaseUrl cfg'
          = Validated.normalizedDeepseekBaseUrl cfg) as Hdeepseek.
  { unfold Validated.normalizedDeepseekBaseUrl at 1. subst cfg'.
    cbn [DEEPSEEK_BASE_URL with_base_urls].
    unfold Validated.normalizedDeepseekBaseUrl.
    by rewrite normalizeBaseUrl_settled. }
  assert (Validated.normalizedOpenaiBaseUrl cfg'
          = Validated.normalizedOpenaiBaseUrl cfg) as Hopenai.
  { unfold Validated.normalizedOpenaiBaseUrl at 1. subst cfg'.
    cbn [OPENAI_BASE_URL with_base_urls].
    unfold Validated.normalizedOpenaiBaseUrl.
    by rewrite normalizeBaseUrl_settled. }
  assert (Validated.IS_DEEPSEEK cfg' = Validated.IS_DEEPSEEK cfg) as Hflag.
  { unfold Validated.IS_DEEPSEEK. by rewrite Hdeepseek. }
  assert (Validated.openai cfg' = Validated.openai cfg) as Hclient.
  { unfold Validated.openai, Validated.safeOpenaiBaseUrl. by rewrite Hopenai. }
  assert (Validated.deepseek cfg' = Validated.deepseek cfg) as Hother.
  { unfold Validated.deepseek. by rewrite Hdeepseek. }
  repeat split; try done.
  - unfold Validated.warnings. subst cfg'.
    cbn [DEEPSEEK_BASE_URL OPENAI_BASE_URL with_base_urls].
    unfold Validated.normalizedDeepseekBaseUrl, Validated.normalizedOpenaiBaseUrl.
    by rewrite !normalizeBaseUrl_settled.
  - unfold Validated.aiClient. by rewrite Hflag, Hclient, Hother.
  - unfold Validated.MODEL. by rewrite Hflag.
Qed.

End MoreNormalisationLaws.

(** [normalizeBaseUrl] and the constants run on the small URL class. *)

Lemma other_providers_unchanged_witness :
  Some "https://api.openai.com/v1" = Some "https://api.openai.com/v1".
Proof.
  apply (other_providers_unchanged (Some "https://api.openai.com/v1")
           (Some Openai) "https://api.openai.com/v1");
    [discriminate|reflexivity].
Defined.

Lemma validated_openai_client_witness :
  OPENAI_BASE_URL Faulty.both = Some "https://api.openai.com/v1"
  ∧ has_protocol "https://api.openai.com/v1" = true
  ∧ is_Some (url_parse "https://api.openai.com/v1")
  ∧ includes "deepseek" "https://api.openai.com/v1" = false.
Proof.
  pose proof (validated_openai_client Faulty.both
                (createOpenAI "sk-openai" (Some "https://api.openai.com/v1"))
                eq_refl)
    as (_ & _ & Hurl).
  exact (Hurl "https://api.openai.com/v1" eq_refl).
Defined.

Lemma normalized_url_well_formed_witness :
  has_protocol "https://api.deepseek.com/v1" = true.
Proof.
  apply (normalized_url_well_formed (H0 := SimpleUrlFacts.laws)
           (Some "https://api.deepseek.com") (Some Deepseek)
           "https://api.deepseek.com/v1").
  reflexivity.
Defined.

Lemma validated_deepseek_client_witness :
  ∃ url parsed,
    baseURL (createDeepSeek "sk-deepseek" (Some "https://api.deepseek.com/v1"))
    = Some url
    ∧ has_protocol url = true
    ∧ url_parse url = Some parsed
    ∧ endsWith "/v1" (pathname parsed) = true.
Proof.
  apply (validated_deepseek_client (H0 := SimpleUrlFacts.laws)
           Sample.deepseek_only
           (createDeepSeek "sk-deepseek" (Some "https://api.deepseek.com/v1"))).
  reflexivity.
Defined.

Lemma normalised_configuration_stable_witness :
  Validated.warnings
    (with_base_urls (Validated.normalizedOpenaiBaseUrl Faulty.both)
       (Validated.normalizedDeepseekBaseUrl Faulty.both) Faulty.both)
  = [].
Proof.
  apply (normalised_configuration_stable (H0 := SimpleUrlFacts.laws)
           Faulty.both).
Defined.

(** ** The diagnostics *)

Section Diagnostics.
Context `{UrlApi}.

Lemma same_or_both_set_truthy a b :
  same_or_both_set a b → truthy (of_env a) = truthy (of_env b).
Proof.
  intros [->|[[x Hx] [y Hy]]]; [done|].
  by rewrite (truthy_of_env_present _ _ Hx), (truthy_of_env_present _ _ Hy).
Qed.

Lemma same_or_both_set_and a b v :
  same_or_both_set a b → js_and (of_env a) v = js_and (of_env b) v.
Proof.
  intros [->|[[x Hx] [y Hy]]]; [done|]. unfold js_and.
  by rewrite (truthy_of_env_present _ _ Hx), (truthy_of_env_present _ _ Hy).
Qed.

Lemma same_or_both_set_tell a b yes no :
  same_or_both_set a b →
  ValidatedDebug.tell a yes no = ValidatedDebug.tell b yes no.
Proof.
  intros Hsame. unfold ValidatedDebug.tell.
  by rewrite (same_or_both_set_truthy a b).
Qed.

(** Whether a client exists depends on the key only through its being
    set. *)
Lemma same_or_both_set_has a b (f g : string → Client) :
  same_or_both_set a b →
  ValidatedDebug.has (match present a with Some k => Some (f k) | None => None end)
  = ValidatedDebug.has (match present b with Some k => Some (g k) | None => None end).
Proof.
  intros [->|[[x ->] [y ->]]]; [|done]. by destruct (present b).
Qed.

(** X16.  What loading the module prints does not depend on the values
    of the API keys: two configurations with the same base URLs, whose
    keys are the same or set in both, print the same diagnostics and
    the same warnings.  (The logs tell whether a key is configured, and
    never the key.) *)
Theorem logs_hide_keys (env : ProcessEnv) (cfg cfg' : Config) :
  same_up_to_keys cfg cfg' →
  ValidatedDebug.debugLogging env cfg = ValidatedDebug.debugLogging env cfg'
  ∧ Validated.warnings cfg = Validated.warnings cfg'.
Proof.
  intros (Hopenai_url & Hdeepseek_url & Hopenai_key & Hdeepseek_key).
  assert (Validated.normalizedDeepseekBaseUrl cfg
          = Validated.normalizedDeepseekBaseUrl cfg') as Hd.
  { unfold Validated.normalizedDeepseekBaseUrl. by rewrite Hdeepseek_url. }
  assert (Validated.normalizedOpenaiBaseUrl cfg
          = Validated.normalizedOpenaiBaseUrl cfg') as Ho.
  { unfold Validated.normalizedOpenaiBaseUrl. by rewrite Hopenai_url. }
  assert (Validated.safeOpenaiBaseUrl cfg = Validated.safeOpenaiBaseUrl cfg')
    as Hsafe.
  { unfold Validated.safeOpenaiBaseUrl. by rewrite Ho. }
  assert (Validated.IS_DEEPSEEK cfg = Validated.IS_DEEPSEEK cfg') as Hflag.
  { unfold Validated.IS_DEEPSEEK. rewrite Hd.
    by apply same_or_both_set_and. }
  assert (ValidatedDebug.has (Validated.openai cfg)
          = ValidatedDebug.has (Validated.openai cfg')) as Hhas_openai.
  { unfold Validated.openai. by apply same_or_both_set_has. }
  assert (ValidatedDebug.has (Validated.deepseek cfg)
          = ValidatedDebug.has (Validated.deepseek cfg')) as Hhas_deepseek.
  { unfold Validated.deepseek. rewrite Hd.
    destruct (present (Validated.normalizedDeepseekBaseUrl cfg')) as [url|].
    - by apply (same_or_both_set_has _ _
                  (λ k, createDeepSeek k (Some url))
                  (λ k, createDeepSeek k (Some url))).
    - by destruct (present (DEEPSEEK_API_KEY cfg)),
           (present (DEEPSEEK_API_KEY cfg')). }
  assert (ValidatedDebug.has (Validated.aiClient cfg)
          = ValidatedDebug.has (Validated.aiClient cfg')) as Hhas_client.
  { unfold Validated.aiClient. rewrite Hflag.
    by destruct (truthy (Validated.IS_DEEPSEEK cfg')). }
  assert (Validated.MODEL cfg = Validated.MODEL cfg') as Hmodel.
  { unfold Validated.MODEL. by rewrite Hflag. }
  split.
  - unfold ValidatedDebug.debugLogging.
    rewrite Hflag, Hhas_openai, Hhas_deepseek, Hhas_client, Hd, Ho, Hsafe,
      Hmodel, Hopenai_url, Hdeepseek_url.
    by rewrite !(same_or_both_set_tell _ _ _ _ Hopenai_key),
      !(same_or_both_set_tell _ _ _ _ Hdeepseek_key).
  - unfold Validated.warnings. by rewrite Hopenai_url, Hdeepseek_url.
Qed.

End Diagnostics.

Lemma logs_hide_keys_witness :
  ValidatedDebug.debugLogging Faulty.vercel Faulty.both
  = ValidatedDebug.debugLogging Faulty.vercel Faulty.both_other_keys.
Proof.
  apply (logs_hide_keys Faulty.vercel Faulty.both Faulty.both_other_keys).
  split; [reflexivity|]. split; [reflexivity|].
  split; right; split; eexists; reflexivity.
Defined.

(** ** [DEEPSEEK_API_KEY] in [src/platforms/openai.ts] *)

(** X17.  In [src/platforms/openai.ts] the value of [DEEPSEEK_API_KEY]
    is never handed to a client: it only switches the provider.  Any
    two non-empty values give the same active client and model, and
    the key of the active client is [AI_SECRET_KEY] or
    [OPENAI_SECRET_KEY]. *)
Theorem openai_ts_deepseek_key_is_a_switch (cfg : Config) (k k' : string) :
  k ≠ "" → k' ≠ "" →
  OpenAiTs.aiClient (with_deepseek_api_key (Some k) cfg)
  = OpenAiTs.aiClient (with_deepseek_api_key (Some k') cfg)
  ∧ OpenAiTs.MODEL (with_deepseek_api_key (Some k) cfg)
    = OpenAiTs.MODEL (with_deepseek_api_key (Some k') cfg)
  ∧ ∀ c, OpenAiTs.aiClient (with_deepseek_api_key (Some k) cfg) = Some c →
      present (AI_SECRET_KEY cfg) = Some (apiKey c)
      ∨ present (OPENAI_SECRET_KEY cfg) = Some (apiKey c).
Proof.
  intros Hk Hk'.
  assert (∀ x, x ≠ "" →
    truthy (OpenAiTs.IS_DEEPSEEK (with_deepseek_api_key (Some x) cfg))
    = truthy (includes_deepseek (DEEPSEEK_BASE_URL cfg))
      || truthy (includes_deepseek (OPENAI_BASE_URL cfg))) as Hflag.
  { intros x Hx. rewrite openai_ts_IS_DEEPSEEK.
    cbn [DEEPSEEK_API_KEY DEEPSEEK_BASE_URL OPENAI_BASE_URL
         with_deepseek_api_key].
    by rewrite (truthy_of_env_present (Some x) x (present_of_Some x Hx)). }
  unfold OpenAiTs.aiClient, OpenAiTs.MODEL.
  rewrite (Hflag k Hk), (Hflag k' Hk').
  split; [done|]. split; [done|].
  intros c. unfold OpenAiTs.deepseek, OpenAiTs.openai.
  cbn [AI_SECRET_KEY AI_BASE_URL OPENAI_SECRET_KEY OPENAI_BASE_URL
       with_deepseek_api_key].
  destruct (_ || _).
  - destruct (present (AI_SECRET_KEY cfg)); [|done]. intros [= <-]. by left.
  - destruct (present (OPENAI_SECRET_KEY cfg)); [|done]. intros [= <-].
    by right.
Qed.

Lemma openai_ts_deepseek_key_is_a_switch_witness :
  OpenAiTs.aiClient (with_deepseek_api_key (Some "sk-one") Faulty.both)
  = OpenAiTs.aiClient (with_deepseek_api_key (Some "sk-two") Faulty.both).
Proof.
  apply (openai_ts_deepseek_key_is_a_switch Faulty.both "sk-one" "sk-two");
    discriminate.
Defined.

(** An [OPENAI_BASE_URL] that points at DeepSeek is not given to the
    OpenAI client of the revision with [normalizeBaseUrl]. *)
Example validated_openai_drops_deepseek_url :
  Validated.openai Faulty.openai_at_deepseek
  = Some (createOpenAI "sk-openai" None).
Proof. reflexivity. Qed.

(** ** Provider selection, over the configuration *)




Section Selection.
Context `{UrlLaws}.

(** A well-formed [DEEPSEEK_BASE_URL] normalises to itself or to the
    URL with [/v1] at the end of its path. *)
Lemma normalized_of_well_formed cfg url parsed :
  DEEPSEEK_BASE_URL cfg = Some url →
  url ≠ "" → has_protocol url = true → url_parse url = Some parsed →
  present (Validated.normalizedDeepseekBaseUrl cfg)
  = Some (if endsWith "/v1" (pathname parsed) then url else rewritten parsed).
Proof.
  intros Hurl Hgiven Hprotocol Hparse.
  unfold Validated.normalizedDeepseekBaseUrl.
  rewrite Hurl, (normalizeBaseUrl_well_formed url _ parsed) by done.
  cbn [andb]. destruct (endsWith "/v1" (pathname parsed)); cbn [negb fst].
  - by apply present_of_Some.
  - apply present_of_Some.
    by destruct (rewritten_url_well_formed url parsed Hprotocol Hparse)
      as (? & _).
Qed.


(** The revision with [normalizeBaseUrl] selects DeepSeek when
    DeepSeek alone is configured. *)
Lemma validated_deepseek_alone_selects_deepseek :
  deepseek_alone_selects_deepseek Validated.aiClient.
Proof.
  intros cfg key url parsed Hkey Hurl Hprotocol Hparse _ _.
  destruct (validated_selects_deepseek cfg key _ Hkey
              (normalized_of_well_formed cfg url parsed Hurl
                 (has_protocol_nonempty _ Hprotocol) Hprotocol Hparse))
    as [-> _].
  by eexists.
Qed.


End Selection.


